(** * prtop: the status pipeline of gh.go and the session engine of ui.go

    A shallow embedding of the pure parts of the program:
    - [Gh]: gh.go (status normalisation, durations, conversion of the
      upstream records, the order used by the check sorter);
    - [Ui]: the revision of ui.go that has the PR picker (two view modes);
    - [Session]: the filter and scroll parts of the session engine, whose
      revision of ui.go is only known through ui_test.go and the
      specification.

    Go strings are byte strings: [string] of the Standard Library, whose
    characters are 8-bit.  Go [int] values are modelled in [Z]; every
    integer below is a list length, an index or a count of seconds, far
    from the 64-bit bounds. *)

From Stdlib Require Import ZArith List String Ascii Bool Lia.
From Stdlib Require Import Permutation Sorted DecimalString OrderedTypeEx.
From Stdlib Require Import DecimalPos DecimalZ.
Import ListNotations.

#[local] Open Scope Z_scope.
#[local] Open Scope string_scope.

(** ** Helpers for the Go runtime and standard library *)

Module GoLib.

(** [len(s)] of a string or of a slice, as a Go [int]. *)
Definition slen (s : string) : Z := Z.of_nat (String.length s).
Definition len {A} (l : list A) : Z := Z.of_nat (List.length l).

(** [fmt.Sprintf("%d", n)]. *)
Definition itoa (n : Z) : string := NilZero.string_of_int (Z.to_int n).

(** [fmt.Sprintf("%02d", n)]: zero padding up to width two.  The text of
    [%d] has at least one character, so padding happens exactly for a
    single digit. *)
Definition itoa02 (n : Z) : string :=
  let s := itoa n in
  if (slen s <? 2)%Z then "0" ++ s else s.

(** [strings.HasPrefix(s, p)]. *)
Definition HasPrefix (s p : string) : bool := String.prefix p s.

(** Comparison of Go strings with [<]: bytewise lexicographic. *)
Definition strLt (a b : string) : bool := String.ltb a b.

(** ASCII instances of [strings.ToUpper] and [strings.TrimSpace], used to
    run the model on concrete inputs.  On strings made of ASCII bytes
    they agree with Go's functions, which in addition know the Unicode
    case tables and the Unicode white space. *)
Definition asciiUpper (c : ascii) : ascii :=
  let n := nat_of_ascii c in
  if (97 <=? n)%nat && (n <=? 122)%nat then ascii_of_nat (n - 32) else c.

Fixpoint asciiToUpper (s : string) : string :=
  match s with
  | EmptyString => EmptyString
  | String c r => String (asciiUpper c) (asciiToUpper r)
  end.

Definition asciiIsSpace (c : ascii) : bool :=
  let n := nat_of_ascii c in
  ((9 <=? n)%nat && (n <=? 13)%nat) || (n =? 32)%nat.

Fixpoint trimLeft (s : string) : string :=
  match s with
  | EmptyString => EmptyString
  | String c r => if asciiIsSpace c then trimLeft r else s
  end.

Fixpoint trimRight (s : string) : string :=
  match s with
  | EmptyString => EmptyString
  | String c r =>
      match trimRight r with
      | EmptyString => if asciiIsSpace c then EmptyString else String c EmptyString
      | r' => String c r'
      end
  end.

Definition asciiTrimSpace (s : string) : string := trimRight (trimLeft s).

End GoLib.

(** ** gh.go *)

Module Gh.
Import GoLib.

(** [type CheckStatus int] with its four [iota] constants. *)
Inductive CheckStatus : Set := Running | Fail | Pass | Skipped.

(** The integer behind a [CheckStatus]; the sorter compares these. *)
Definition rank (s : CheckStatus) : Z :=
  match s with Running => 0 | Fail => 1 | Pass => 2 | Skipped => 3 end.

Definition CheckStatus_eqb (a b : CheckStatus) : bool := (rank a =? rank b)%Z.

(** A [time.Time] is an instant, kept as nanoseconds counted from the
    zero time (the value of [time.Time{}]). *)
Definition Time : Set := Z.
Definition zeroTime : Time := 0%Z.
Definition IsZero (t : Time) : bool := (t =? 0)%Z.

Definition minDuration : Z := (- 2 ^ 63)%Z.
Definition maxDuration : Z := (2 ^ 63 - 1)%Z.

(** [t.Sub(u)]: a [time.Duration] in nanoseconds, saturating. *)
Definition Sub (t u : Time) : Z :=
  Z.max minDuration (Z.min maxDuration (t - u)).

Record Check : Set := mkCheck {
  Name : string;
  Status : CheckStatus;
  Duration : string;
  DetailsURL : string;
  StartedAt : Time;
  Completed : bool
}.

Record PRData : Set := mkPRData {
  Title : string;
  HeadRefName : string;
  URL : string;
  Checks : list Check
}.

Record ghCheckItem : Set := mkItem {
  iTypename : string;
  iName : string;
  iContext : string;
  iStatus : string;
  iConclusion : string;
  iState : string;
  iStartedAt : string;
  iCompletedAt : string;
  iDetailsURL : string;
  iTargetURL : string;
  iWorkflowName : string
}.

Record ghPRResponse : Set := mkResp {
  rTitle : string;
  rHeadRefName : string;
  rURL : string;
  rStatusCheckRollup : list ghCheckItem
}.

Record PRSummary : Set := mkSummary {
  Repo : string;
  Number : Z;
  sTitle : string;
  sURL : string;
  UpdatedAt : string
}.

(** [formatDuration]; Go's [/] and [%] truncate towards zero. *)
Definition formatDuration (totalSeconds : Z) : string :=
  let minutes := Z.quot totalSeconds 60 in
  let seconds := Z.rem totalSeconds 60 in
  if (minutes >? 0)%Z then itoa minutes ++ "m" ++ itoa02 seconds ++ "s"
  else itoa seconds ++ "s".

Section Library.
(** What gh.go takes from Go's standard library and from the clock:
    [strings.ToUpper], [strings.TrimSpace],
    [time.Parse(time.RFC3339, _)] ([None] is the error),
    [time.Now().UTC()], and [int(d.Seconds())] for a duration [d] in
    nanoseconds, which goes through [float64]. *)
Variable ToUpper TrimSpace : string -> string.
Variable parseRFC3339 : string -> option Time.
Variable now : Time.
Variable wholeSeconds : Z -> Z.

(** [normalizeStatus]: the [switch] tries its cases from the top. *)
Definition normalizeStatus (raw : string) : CheckStatus :=
  let raw := ToUpper (TrimSpace raw) in
  if (raw =? "SUCCESS") || (raw =? "PASS") then Pass
  else if (raw =? "FAILURE") || (raw =? "FAIL") || (raw =? "ERROR")
          || (raw =? "TIMED_OUT") || (raw =? "ACTION_REQUIRED")
          || (raw =? "STARTUP_FAILURE") then Fail
  else if (raw =? "IN_PROGRESS") || (raw =? "RUNNING") || (raw =? "PENDING")
          || (raw =? "QUEUED") || (raw =? "WAITING") || (raw =? "REQUESTED")
       then Running
  else if (raw =? "SKIPPED") || (raw =? "CANCELLED") || (raw =? "NEUTRAL")
          || (raw =? "STALE") then Skipped
  else if raw =? "" then Running
  else Running.

(** [parseDuration]. *)
Definition parseDuration (startedAt completedAt : string)
  : string * Time * bool :=
  if startedAt =? "" then ("-", zeroTime, false)
  else
    match parseRFC3339 startedAt with
    | None => ("-", zeroTime, false)
    | Some start =>
        let '(end_, completed) :=
          if negb (completedAt =? "") then
            match parseRFC3339 completedAt with
            | Some e => (e, true)
            | None => (zeroTime, false)
            end
          else (zeroTime, false) in
        let end_ := if negb completed then now else end_ in
        let delta := wholeSeconds (Sub end_ start) in
        let delta := if (delta <? 0)%Z then 0%Z else delta in
        (formatDuration delta, start, completed)
    end.

(** The name given to a check in the loop of [fetchPRData]. *)
Definition itemName (item : ghCheckItem) : string :=
  let name := iName item in
  let name := if name =? "" then iContext item else name in
  let name := if name =? "" then "unknown" else name in
  if negb (iWorkflowName item =? "")
  then name ++ " (" ++ iWorkflowName item ++ ")"
  else name.

(** The status given to a check in the loop of [fetchPRData]. *)
Definition itemStatus (item : ghCheckItem) : CheckStatus :=
  if negb (iConclusion item =? "") then normalizeStatus (iConclusion item)
  else if negb (iStatus item =? "") then normalizeStatus (iStatus item)
  else normalizeStatus (iState item).

(** [completedAt] after the zero-timestamp test. *)
Definition itemCompletedAt (item : ghCheckItem) : string :=
  if HasPrefix (iCompletedAt item) "0001" then "" else iCompletedAt item.

Definition forceCompleted (item : ghCheckItem) : bool :=
  (itemCompletedAt item =? "") && (iTypename item =? "StatusContext")
  && negb (CheckStatus_eqb (itemStatus item) Running).

(** One turn of the loop of [fetchPRData]: the [Check] appended for
    [item]. *)
Definition itemCheck (item : ghCheckItem) : Check :=
  let name := itemName item in
  let status := itemStatus item in
  let completedAt := itemCompletedAt item in
  let '(dur, startedAt, completed) :=
    parseDuration (iStartedAt item) completedAt in
  let '(dur, completed) :=
    if forceCompleted item then ("???", true) else (dur, completed) in
  let detailsURL := iDetailsURL item in
  let detailsURL := if detailsURL =? "" then iTargetURL item else detailsURL in
  mkCheck name status dur detailsURL startedAt completed.

End Library.

(** The [less] closure handed to [sort.Slice]. *)
Definition checkLess (a b : Check) : bool :=
  if negb (CheckStatus_eqb (Status a) (Status b))
  then (rank (Status a) <? rank (Status b))%Z
  else strLt (Name a) (Name b).

Section Pipeline.
Variable ToUpper TrimSpace : string -> string.
Variable parseRFC3339 : string -> option Time.
Variable now : Time.
Variable wholeSeconds : Z -> Z.
(** [sort.Slice(checks, less)], of Go's package [sort]. *)
Variable sortSlice : (Check -> Check -> bool) -> list Check -> list Check.

(** [fetchPRData] once the response of the [gh] tool is decoded: the
    loop over [StatusCheckRollup], the sort, the [PRData]. *)
Definition prDataOfResponse (resp : ghPRResponse) : PRData :=
  let checks :=
    map (itemCheck ToUpper TrimSpace parseRFC3339 now wholeSeconds)
        (rStatusCheckRollup resp) in
  let checks := sortSlice checkLess checks in
  mkPRData (rTitle resp) (rHeadRefName resp) (rURL resp) checks.
End Pipeline.

End Gh.

(** ** ui.go, the revision with the PR picker *)

Module Ui.
Import GoLib Gh.

Inductive viewMode : Set := modeSelecting | modeViewing.

(** The keys of [tea.KeyMsg] that [Update] tells apart; [KeyRunes]
    carries [string(msg.Runes)], [KeyEsc] and [KeyOther] are keys it has
    no case for. *)
Inductive Key : Set :=
| KeyCtrlC | KeyUp | KeyDown | KeyEnter | KeyEsc
| KeyRunes (runes : string)
| KeyOther.

(** The messages of the program.  A Go [error] is kept as its text,
    [nil] as [None]; the [*PRData] of a [prDataMsg] may be [nil]. *)
Inductive Msg : Set :=
| KeyMsg (k : Key)
| prListMsg (prs : list PRSummary) (err : option string)
| prDataMsg (data : option PRData) (err : option string)
| tickMsg
| WindowSizeMsg (Width Height : Z)
| otherMsg.

(** The commands [Update] returns, as data ([CmdNil] is [nil]). *)
Inductive Cmd : Set :=
| CmdNil
| CmdQuit
| CmdFetchPRList
| CmdFetch (repo prNumber : string)
| CmdTick (interval : Z)
| CmdBatch (c1 c2 : Cmd).

Record model : Set := mkModel {
  mode : viewMode;
  repo : string;
  prNumber : string;
  interval : Z;
  prData : option PRData;
  err : option string;
  selected : Z;
  width : Z;
  height : Z;
  prs : list PRSummary;
  loading : bool
}.

Definition newModel (repo prNumber : string) (interval : Z) : model :=
  mkModel modeViewing repo prNumber interval None None 0 0 0 [] false.

Definition newSelectModel (interval : Z) : model :=
  mkModel modeSelecting "" "" interval None None 0 0 0 [] true.

Definition fetchCmd (m : model) : Cmd := CmdFetch (repo m) (prNumber m).
Definition tickCmd (m : model) : Cmd := CmdTick (interval m).

(** Field updates. *)
Definition setSelected (m : model) (i : Z) : model :=
  mkModel (mode m) (repo m) (prNumber m) (interval m) (prData m) (err m)
          i (width m) (height m) (prs m) (loading m).
Definition setLoading (m : model) (b : bool) : model :=
  mkModel (mode m) (repo m) (prNumber m) (interval m) (prData m) (err m)
          (selected m) (width m) (height m) (prs m) b.
Definition setErr (m : model) (e : option string) : model :=
  mkModel (mode m) (repo m) (prNumber m) (interval m) (prData m) e
          (selected m) (width m) (height m) (prs m) (loading m).
Definition setPrData (m : model) (d : option PRData) : model :=
  mkModel (mode m) (repo m) (prNumber m) (interval m) d (err m)
          (selected m) (width m) (height m) (prs m) (loading m).
Definition setPrs (m : model) (l : list PRSummary) : model :=
  mkModel (mode m) (repo m) (prNumber m) (interval m) (prData m) (err m)
          (selected m) (width m) (height m) l (loading m).
Definition setSize (m : model) (w h : Z) : model :=
  mkModel (mode m) (repo m) (prNumber m) (interval m) (prData m) (err m)
          (selected m) w h (prs m) (loading m).

(** [l[i]]: [None] stands for the run-time panic of an index out of
    range. *)
Definition index {A} (l : list A) (i : Z) : option A :=
  if (i <? 0)%Z then None else nth_error l (Z.to_nat i).

(** What a call of [Update] yields: the new model, the command, and the
    URL passed to [openBrowser] during the call, if any. *)
Record Result : Set := mkResult {
  next : model;
  cmd : Cmd;
  opened : option string
}.

Definition ret (m : model) (c : Cmd) : option Result :=
  Some (mkResult m c None).

(** The body shared by the cases [tea.KeyUp] and ["k"]. *)
Definition moveUp (m : model) : model :=
  if (selected m >? 0)%Z then setSelected m (selected m - 1) else m.

(** The body shared by the cases [tea.KeyDown] and ["j"]. *)
Definition moveDown (m : model) : model :=
  match mode m with
  | modeSelecting =>
      if (len (prs m) >? 0)%Z && (selected m <? len (prs m) - 1)%Z
      then setSelected m (selected m + 1) else m
  | modeViewing =>
      match prData m with
      | Some d =>
          if (selected m <? len (Checks d) - 1)%Z
          then setSelected m (selected m + 1) else m
      | None => m
      end
  end.

(** [model.Update]; [None] is a run-time panic. *)
Definition Update (m : model) (msg : Msg) : option Result :=
  match msg with
  | KeyMsg KeyCtrlC => ret m CmdQuit
  | KeyMsg KeyUp => ret (moveUp m) CmdNil
  | KeyMsg KeyDown => ret (moveDown m) CmdNil
  | KeyMsg KeyEnter =>
      match mode m with
      | modeSelecting =>
          if (len (prs m) >? 0)%Z then
            match index (prs m) (selected m) with
            | None => None
            | Some pr =>
                let m' := mkModel modeViewing (Repo pr) (itoa (Number pr))
                            (interval m) None None 0 (width m) (height m)
                            (prs m) (loading m) in
                ret m' (CmdBatch (fetchCmd m') (tickCmd m'))
            end
          else ret m CmdNil
      | modeViewing =>
          match prData m with
          | Some d =>
              if (len (Checks d) >? 0)%Z then
                match index (Checks d) (selected m) with
                | None => None
                | Some check =>
                    if negb (DetailsURL check =? "")
                    then Some (mkResult m CmdNil (Some (DetailsURL check)))
                    else ret m CmdNil
                end
              else ret m CmdNil
          | None => ret m CmdNil
          end
      end
  | KeyMsg (KeyRunes r) =>
      if r =? "q" then ret m CmdQuit
      else if r =? "r" then
        match mode m with
        | modeSelecting => ret (setLoading m true) CmdFetchPRList
        | modeViewing => ret m (fetchCmd m)
        end
      else if r =? "k" then ret (moveUp m) CmdNil
      else if r =? "j" then ret (moveDown m) CmdNil
      else ret m CmdNil
  | KeyMsg _ => ret m CmdNil
  | prListMsg l e =>
      let m := setLoading m false in
      match e with
      | Some _ => ret (setErr m e) CmdNil
      | None => ret (setSelected (setErr (setPrs m l) None) 0) CmdNil
      end
  | prDataMsg d e =>
      match e with
      | Some _ => ret (setErr m e) CmdNil
      | None =>
          match d with
          | None => None
          | Some data =>
              let m := setErr (setPrData m d) None in
              if (len (Checks data) >? 0)%Z then
                if (selected m >=? len (Checks data))%Z
                then ret (setSelected m (len (Checks data) - 1)) CmdNil
                else ret m CmdNil
              else ret (setSelected m 0) CmdNil
          end
      end
  | tickMsg => ret m (CmdBatch (fetchCmd m) (tickCmd m))
  | WindowSizeMsg w h => ret (setSize m w h) CmdNil
  | otherMsg => ret m CmdNil
  end.

(** The number of table rows [View] can show. *)
Definition maxRows (m : model) : Z :=
  let r := (height m - 8)%Z in
  if (r <? 1)%Z then 1%Z else r.

(** [truncate]: [s[:maxWidth]] keeps the first [maxWidth] bytes. *)
Definition truncate (s : string) (maxWidth : Z) : string :=
  if (slen s >? maxWidth)%Z && (maxWidth >? 0)%Z
  then substring 0 (Z.to_nat maxWidth) s
  else s.

End Ui.

(** ** The session engine with filter and scroll

  The revision of ui.go with the fields [hideSkipped], [scrollOff] and
  [canGoBack] and the method [filteredChecks] is exercised by ui_test.go
  but its text is not at hand.  This module follows section 4.3 of the
  specification, transition by transition; constructors and field names
  are those of ui_test.go, and the number of fixed rows is the one of
  [Ui.maxRows]. *)

Module Session.
Import GoLib Gh.
Export Ui (viewMode, modeSelecting, modeViewing).

(** Modelled from the spec: the record SessionState of section 3, that is
    the [model] of the absent revision of ui.go (mode, target, refresh
    interval, last PRData, last error, selection index, scroll offset,
    hide-skipped flag, viewport size, PR list, loading flag, can-go-back
    flag). *)
Record SessionState : Set := mkSession {
  mode : viewMode;
  repo : string;
  prNumber : string;
  interval : Z;
  prData : option PRData;
  err : option string;
  selected : Z;
  scrollOff : Z;
  hideSkipped : bool;
  width : Z;
  height : Z;
  prs : list PRSummary;
  loading : bool;
  canGoBack : bool
}.

(** Modelled from the spec: construction of the absent [newModel] with a
    target (start in Viewing, hide-skipped defaults to true). *)
Definition newModel (repo prNumber : string) (interval : Z) : SessionState :=
  mkSession modeViewing repo prNumber interval None None 0 0 true 0 0 []
            false false.

(** Modelled from the spec: construction of the absent [newSelectModel]
    (start in Selecting with loading set, able to return to the list,
    hide-skipped defaults to true). *)
Definition newSelectModel (interval : Z) : SessionState :=
  mkSession modeSelecting "" "" interval None None 0 0 true 0 0 []
            true true.

(** Modelled from the spec: the input events of section 4.3 of the absent
    [Update]; a fetch result is the fetched value or the error text. *)
Inductive Event : Set :=
| MoveDown | MoveUp | Enter | Refresh | ToggleFilter | GoBack | Tick
| FetchListResult (r : list PRSummary + string)
| FetchDataResult (r : PRData + string)
| Resize (w h : Z)
| Quit.

(** Modelled from the spec: the follow-up actions of section 4.3 and 9
    that the absent [Update] emits. *)
Inductive Command : Set :=
| FetchList
| FetchData (repo prNumber : string)
| StartTimer (interval : Z)
| OpenURL (url : string)
| Terminate.

Definition isSkipped (c : Check) : bool := CheckStatus_eqb (Status c) Skipped.

(** Modelled from the spec: the loop of the absent [filteredChecks] that
    leaves out the checks whose status is Skipped and keeps the others in
    their order. *)
Fixpoint dropSkipped (checks : list Check) : list Check :=
  match checks with
  | [] => []
  | c :: rest => if isSkipped c then dropSkipped rest else c :: dropSkipped rest
  end.

(** Modelled from the spec: the absent method [filteredChecks] (the full
    check list if hide-skipped is false, otherwise the checks that are
    not Skipped; nothing while no PRData is held). *)
Definition filteredChecks (s : SessionState) : list Check :=
  match prData s with
  | None => []
  | Some d => if hideSkipped s then dropSkipped (Checks d) else Checks d
  end.

(** Modelled from the spec: visibleRows of the absent scroll code, the
    height minus the fixed rows, at least 1; the eight fixed rows are
    those counted by [View] in the revision at hand. *)
Definition visibleRows (s : SessionState) : Z :=
  let r := (height s - 8)%Z in
  if (r <? 1)%Z then 1%Z else r.

Definition setSelected (s : SessionState) (i : Z) : SessionState :=
  mkSession (mode s) (repo s) (prNumber s) (interval s) (prData s) (err s)
            i (scrollOff s) (hideSkipped s) (width s) (height s) (prs s)
            (loading s) (canGoBack s).
Definition setScrollOff (s : SessionState) (o : Z) : SessionState :=
  mkSession (mode s) (repo s) (prNumber s) (interval s) (prData s) (err s)
            (selected s) o (hideSkipped s) (width s) (height s) (prs s)
            (loading s) (canGoBack s).
Definition setErr (s : SessionState) (e : option string) : SessionState :=
  mkSession (mode s) (repo s) (prNumber s) (interval s) (prData s) e
            (selected s) (scrollOff s) (hideSkipped s) (width s) (height s)
            (prs s) (loading s) (canGoBack s).
Definition setPrData (s : SessionState) (d : option PRData) : SessionState :=
  mkSession (mode s) (repo s) (prNumber s) (interval s) d (err s)
            (selected s) (scrollOff s) (hideSkipped s) (width s) (height s)
            (prs s) (loading s) (canGoBack s).
Definition setPrs (s : SessionState) (l : list PRSummary) : SessionState :=
  mkSession (mode s) (repo s) (prNumber s) (interval s) (prData s) (err s)
            (selected s) (scrollOff s) (hideSkipped s) (width s) (height s)
            l (loading s) (canGoBack s).
Definition setLoading (s : SessionState) (b : bool) : SessionState :=
  mkSession (mode s) (repo s) (prNumber s) (interval s) (prData s) (err s)
            (selected s) (scrollOff s) (hideSkipped s) (width s) (height s)
            (prs s) b (canGoBack s).
Definition setSize (s : SessionState) (w h : Z) : SessionState :=
  mkSession (mode s) (repo s) (prNumber s) (interval s) (prData s) (err s)
            (selected s) (scrollOff s) (hideSkipped s) w h (prs s)
            (loading s) (canGoBack s).

(** Modelled from the spec: the scroll-offset maintenance of the absent
    [Update] (selection at or past the end of the window: offset =
    selection - visibleRows + 1; selection before the window: offset =
    selection; otherwise unchanged). *)
Definition adjustScroll (s : SessionState) : SessionState :=
  if (selected s >=? scrollOff s + visibleRows s)%Z
  then setScrollOff s (selected s - visibleRows s + 1)
  else if (selected s <? scrollOff s)%Z
  then setScrollOff s (selected s)
  else s.

(** Modelled from the spec: the length of the collection active for the
    mode, as the absent navigation code uses it (raw PR list in
    Selecting, filtered checks in Viewing). *)
Definition activeCount (s : SessionState) : Z :=
  match mode s with
  | modeSelecting => len (prs s)
  | modeViewing => len (filteredChecks s)
  end.

(** Modelled from the spec: the clamp of the absent fetch-data handler
    (into [0, filteredCount-1]; 0 when filteredCount is 0). *)
Definition clampSelected (s : SessionState) : SessionState :=
  let n := len (filteredChecks s) in
  if (n >? 0)%Z then
    if (selected s >=? n)%Z then setSelected s (n - 1) else s
  else setSelected s 0.

(** Modelled from the spec: the transitions of section 4.3 of the absent
    [Update], before scroll maintenance. *)
Definition transition (s : SessionState) (e : Event)
  : SessionState * list Command :=
  match e with
  | MoveDown =>
      if (selected s <? activeCount s - 1)%Z
      then (setSelected s (selected s + 1), [])
      else (s, [])
  | MoveUp =>
      if (selected s >? 0)%Z
      then (setSelected s (selected s - 1), [])
      else (s, [])
  | Enter =>
      match mode s with
      | modeSelecting =>
          match Ui.index (prs s) (selected s) with
          | Some pr =>
              (mkSession modeViewing (Repo pr) (itoa (Number pr)) (interval s)
                         None None 0 0 (hideSkipped s) (width s) (height s)
                         (prs s) (loading s) (canGoBack s),
               [FetchData (Repo pr) (itoa (Number pr)); StartTimer (interval s)])
          | None => (s, [])
          end
      | modeViewing =>
          match Ui.index (filteredChecks s) (selected s) with
          | Some c =>
              if negb (DetailsURL c =? "") then (s, [OpenURL (DetailsURL c)])
              else (s, [])
          | None => (s, [])
          end
      end
  | Refresh =>
      match mode s with
      | modeSelecting => (setLoading s true, [FetchList])
      | modeViewing => (s, [FetchData (repo s) (prNumber s)])
      end
  | ToggleFilter =>
      match mode s with
      | modeViewing =>
          (mkSession (mode s) (repo s) (prNumber s) (interval s) (prData s)
                     (err s) 0 0 (negb (hideSkipped s)) (width s) (height s)
                     (prs s) (loading s) (canGoBack s), [])
      | modeSelecting => (s, [])
      end
  | GoBack =>
      match mode s with
      | modeViewing =>
          if canGoBack s then
            (mkSession modeSelecting (repo s) (prNumber s) (interval s) None
                       (err s) 0 0 (hideSkipped s) (width s) (height s)
                       (prs s) true (canGoBack s), [FetchList])
          else (s, [])
      | modeSelecting => (s, [])
      end
  | Tick =>
      match mode s with
      | modeViewing =>
          (s, [FetchData (repo s) (prNumber s); StartTimer (interval s)])
      | modeSelecting => (s, [])
      end
  | FetchListResult r =>
      let s := setLoading s false in
      match r with
      | inl l => (setSelected (setErr (setPrs s l) None) 0, [])
      | inr e => (setErr s (Some e), [])
      end
  | FetchDataResult r =>
      match r with
      | inl d => (clampSelected (setErr (setPrData s (Some d)) None), [])
      | inr e => (setErr s (Some e), [])
      end
  | Resize w h => (setSize s w h, [])
  | Quit => (s, [Terminate])
  end.

(** Modelled from the spec: one event handled by the absent [Update]: the
    transition, then scroll maintenance when the selection index changed
    and the session is in Viewing. *)
Definition step (s : SessionState) (e : Event) : SessionState * list Command :=
  let '(s', cmds) := transition s e in
  match mode s' with
  | modeViewing =>
      if (selected s' =? selected s)%Z then (s', cmds)
      else (adjustScroll s', cmds)
  | modeSelecting => (s', cmds)
  end.

(** The state after a sequence of events. *)
Definition run (s : SessionState) (es : list Event) : SessionState :=
  fold_left (fun s e => fst (step s e)) es s.


End Session.

(** * Definitions on the side of the specification *)

(** ** The status table of the specification *)

Module StatusTable.
Import GoLib Gh.

Definition passTokens : list string := ["SUCCESS"; "PASS"].
Definition failTokens : list string :=
  ["FAILURE"; "FAIL"; "ERROR"; "TIMED_OUT"; "ACTION_REQUIRED"; "STARTUP_FAILURE"].
Definition runningTokens : list string :=
  ["IN_PROGRESS"; "RUNNING"; "PENDING"; "QUEUED"; "WAITING"; "REQUESTED"].
Definition skippedTokens : list string :=
  ["SKIPPED"; "CANCELLED"; "NEUTRAL"; "STALE"].

Definition member (token : string) (set : list string) : bool :=
  existsb (String.eqb token) set.

(** The documented table, read as the specification words it: four sets
    of tokens with their canonical state, Running for anything else. *)
Definition documentedStatus (token : string) : CheckStatus :=
  if member token passTokens then Pass
  else if member token failTokens then Fail
  else if member token runningTokens then Running
  else if member token skippedTokens then Skipped
  else Running.

(** "The first non-empty of the three, in that order"; the last field is
    what remains when all are empty. *)
Fixpoint firstNonEmpty (fields : list string) : string :=
  match fields with
  | [] => ""
  | s :: rest => if s =? "" then firstNonEmpty rest else s
  end.

(** A completion timestamp is absent when it is empty or starts with the
    year of the zero time. *)
Definition completionAbsent (item : ghCheckItem) : Prop :=
  iCompletedAt item = "" \/ HasPrefix (iCompletedAt item) "0001" = true.
End StatusTable.

(** ** The order and the contract of the check sorter *)

Module Sorter.
Import GoLib Gh.

(** [a] may stand before [b]: lower rank, or the same rank and a name that
    is not greater (bytewise lexicographic order). *)
Definition ordered (a b : Check) : Prop :=
  (rank (Status a) < rank (Status b))%Z
  \/ (rank (Status a) = rank (Status b)
      /\ String.leb (Name a) (Name b) = true).

(** What [sort.Slice] promises for the closure of [fetchPRData]: the
    result holds the same elements and no element is [less] than one that
    stands before it.  Go documents that the sort "is not guaranteed to be
    stable". *)
Definition sortSliceContract
  (sortSlice : (Check -> Check -> bool) -> list Check -> list Check) : Prop :=
  forall l,
    Permutation l (sortSlice checkLess l)
    /\ StronglySorted (fun a b => checkLess b a = false) (sortSlice checkLess l).

(** Two checks with equal status and equal name. *)
Definition sameKey (a b : Check) : bool :=
  CheckStatus_eqb (Status a) (Status b) && (Name a =? Name b).

(** Stability: the checks that share a key come out in their input
    order. *)
Definition stable (input output : list Check) : Prop :=
  forall c, filter (sameKey c) output = filter (sameKey c) input.

(** Insertion sort, a stable sort that meets the contract. *)
Fixpoint insert (less : Check -> Check -> bool) (x : Check) (l : list Check)
  : list Check :=
  match l with
  | [] => [x]
  | y :: r => if less y x then y :: insert less x r else x :: y :: r
  end.

Definition insertionSort (less : Check -> Check -> bool) (l : list Check)
  : list Check :=
  fold_right (insert less) [] l.

(** A sort that meets the contract and is not stable: insertion sort run
    over the slice read backwards. *)
Definition backwardSort (less : Check -> Check -> bool) (l : list Check)
  : list Check :=
  insertionSort less (rev l).

End Sorter.

(** ** Navigation over the active collection *)

Module Nav.
Import GoLib Gh Ui.

(** Length of the collection active for the mode. *)
Definition activeLen (m : model) : Z :=
  match mode m with
  | modeSelecting => len (prs m)
  | modeViewing =>
      match prData m with
      | Some d => len (Checks d)
      | None => 0%Z
      end
  end.

(** The messages that move the selection. *)
Definition isUp (msg : Msg) : bool :=
  match msg with
  | KeyMsg KeyUp => true
  | KeyMsg (KeyRunes r) => r =? "k"
  | _ => false
  end.

Definition isDown (msg : Msg) : bool :=
  match msg with
  | KeyMsg KeyDown => true
  | KeyMsg (KeyRunes r) => r =? "j"
  | _ => false
  end.

Definition isNav (msg : Msg) : bool := isUp msg || isDown msg.

(** [Update] applied to the messages in turn; [None] if one panics. *)
Fixpoint updates (m : model) (msgs : list Msg) : option model :=
  match msgs with
  | [] => Some m
  | msg :: rest =>
      match Update m msg with
      | Some r => updates (next r) rest
      | None => None
      end
  end.

(** The selection is within the active collection, or 0 when it is
    empty. *)
Definition selectionInRange (m : model) : Prop :=
  ((activeLen m > 0)%Z -> (0 <= selected m <= activeLen m - 1)%Z)
  /\ (activeLen m = 0%Z -> selected m = 0%Z).

(** Same model up to the selection index. *)
Definition sameButSelected (m m' : model) : Prop :=
  m' = setSelected m (selected m').

(** The models the program can be in: those of the two constructors and
    what [Update] makes of them. *)
Inductive reachable : model -> Prop :=
| reach_newModel r p i : reachable (newModel r p i)
| reach_newSelectModel i : reachable (newSelectModel i)
| reach_Update m msg r :
    reachable m -> Update m msg = Some r -> reachable (next r).

End Nav.

(** ** Counting and subsequences for the filter *)

Module SessionSpec.
Import GoLib Gh Session.

(** The number of checks that are not Skipped, counted as the summary line
    counts statuses: one pass over the unfiltered list. *)
Definition countNotSkipped (checks : list Check) : Z :=
  fold_left (fun n c => if isSkipped c then n else (n + 1)%Z) checks 0%Z.

(** [sub] is [l] with some elements left out, order kept. *)
Inductive Subsequence {A} : list A -> list A -> Prop :=
| sub_nil : Subsequence [] []
| sub_skip x sub l : Subsequence sub l -> Subsequence sub (x :: l)
| sub_keep x sub l : Subsequence sub l -> Subsequence (x :: sub) (x :: l).


(** The sessions the engine can be in: those of the two constructors and
    what [step] makes of them. *)
Inductive reachable : SessionState -> Prop :=
| reach_session_newModel r p i : reachable (newModel r p i)
| reach_session_newSelectModel i : reachable (newSelectModel i)
| reach_session_step s e : reachable s -> reachable (fst (step s e)).

(** The selection index invariant of section 3 of the specification:
    within the active collection, or 0 when it is empty. *)
Definition selectionInvariant (s : SessionState) : Prop :=
  (0 <= selected s)%Z /\ ((selected s < activeCount s)%Z \/ selected s = 0%Z).

(** The part of a session that the revision of ui.go with the PR picker
    already has: every field but [scrollOff], [hideSkipped], [canGoBack]. *)
Definition erase (s : SessionState) : Ui.model :=
  Ui.mkModel (mode s) (repo s) (prNumber s) (interval s) (prData s) (err s)
             (selected s) (width s) (height s) (prs s) (loading s).

(** The event a message of that revision stands for; the keys it has no
    case for stand for none. *)
Definition eventOf (msg : Ui.Msg) : option Event :=
  match msg with
  | Ui.KeyMsg Ui.KeyCtrlC => Some Quit
  | Ui.KeyMsg Ui.KeyUp => Some MoveUp
  | Ui.KeyMsg Ui.KeyDown => Some MoveDown
  | Ui.KeyMsg Ui.KeyEnter => Some Enter
  | Ui.KeyMsg (Ui.KeyRunes r) =>
      if r =? "q" then Some Quit
      else if r =? "r" then Some Refresh
      else if r =? "k" then Some MoveUp
      else if r =? "j" then Some MoveDown
      else None
  | Ui.KeyMsg _ => None
  | Ui.prListMsg l None => Some (FetchListResult (inl l))
  | Ui.prListMsg _ (Some e) => Some (FetchListResult (inr e))
  | Ui.prDataMsg _ (Some e) => Some (FetchDataResult (inr e))
  | Ui.prDataMsg (Some d) None => Some (FetchDataResult (inl d))
  | Ui.prDataMsg None None => None
  | Ui.tickMsg => Some Tick
  | Ui.WindowSizeMsg w h => Some (Resize w h)
  | Ui.otherMsg => None
  end.

End SessionSpec.

(** ** Concrete inputs *)

Module Instances.
Import GoLib Gh.

(** [time.Parse] on the timestamps used by gh_test.go (nanoseconds since
    the zero time); any other text is an error. *)
Definition parseTable (s : string) : option Time :=
  if s =? "2024-01-01T10:00:00Z" then Some (63839700000 * 1000000000)%Z
  else if s =? "2024-01-01T10:00:45Z" then Some (63839700045 * 1000000000)%Z
  else if s =? "2024-01-01T10:02:35Z" then Some (63839700155 * 1000000000)%Z
  else None.

(** A clock reading: 2024-01-01T10:05:00Z. *)
Definition clock : Time := (63839700300 * 1000000000)%Z.

(** Whole seconds of a duration, truncated towards zero. *)
Definition truncSeconds (d : Z) : Z := Z.quot d 1000000000.

Definition convert : ghCheckItem -> Check :=
  itemCheck asciiToUpper asciiTrimSpace parseTable clock truncSeconds.

(** A Jenkins status context: no completion timestamp, state "success". *)
Definition jenkinsItem : ghCheckItem :=
  mkItem "StatusContext" "" "ci/jenkins" "" "" "success"
         "2024-01-01T10:00:00Z" "0001-01-01T00:00:00Z" "" "http://jenkins" "".

(** A check run with both timestamps. *)
Definition buildItem : ghCheckItem :=
  mkItem "CheckRun" "build" "" "COMPLETED" "SUCCESS" ""
         "2024-01-01T10:00:00Z" "2024-01-01T10:02:35Z" "http://build" "" "CI".

(** A status context that is still pending. *)
Definition pendingItem : ghCheckItem :=
  mkItem "StatusContext" "" "ci/deploy" "" "" "pending"
         "2024-01-01T10:00:00Z" "" "" "" "".

Definition passing (name : string) : Check :=
  mkCheck name Pass "1s" "" zeroTime true.

Definition sixPassing : PRData :=
  mkPRData "Test PR" "feature" ""
    [passing "a"; passing "b"; passing "c"; passing "d"; passing "e"; passing "f"].

Definition mixed : PRData :=
  mkPRData "Test PR" "feature" ""
    [mkCheck "lint" Fail "20s" "http://lint" zeroTime true;
     mkCheck "build" Pass "1m30s" "http://build" zeroTime true;
     mkCheck "skip1" Skipped "" "" zeroTime true].

(** A Viewing session of height 12 (four visible rows) with six checks. *)
Definition viewingSix : Session.SessionState :=
  Session.run (Session.newModel "o/r" "1" 5)
    [Session.Resize 80 12; Session.FetchDataResult (inl sixPassing)].


(** The session after five moves down: the selection index is 5. *)
Definition sessionAtFive : Session.SessionState :=
  Session.run viewingSix
    [Session.MoveDown; Session.MoveDown; Session.MoveDown; Session.MoveDown;
     Session.MoveDown].

(** The same in the revision of ui.go with the PR picker: the messages,
    and the model they lead to from [Ui.newModel]. *)
Definition toFive : list Ui.Msg :=
  [Ui.WindowSizeMsg 80 40; Ui.prDataMsg (Some sixPassing) None;
   Ui.KeyMsg Ui.KeyDown; Ui.KeyMsg Ui.KeyDown; Ui.KeyMsg Ui.KeyDown;
   Ui.KeyMsg Ui.KeyDown; Ui.KeyMsg Ui.KeyDown].

Definition modelAtFive : Ui.model :=
  Ui.mkModel Ui.modeViewing "o/r" "1" 5 (Some sixPassing) None 5 80 40 []
             false.

Definition modelThree : Ui.model :=
  Ui.mkModel Ui.modeViewing "o/r" "1" 5 (Some mixed) None 0 80 40 [] false.

Definition keys : list Ui.Msg :=
  [Ui.KeyMsg Ui.KeyDown; Ui.KeyMsg (Ui.KeyRunes "j"); Ui.KeyMsg Ui.KeyDown;
   Ui.KeyMsg Ui.KeyDown; Ui.KeyMsg (Ui.KeyRunes "k"); Ui.KeyMsg Ui.KeyUp;
   Ui.KeyMsg Ui.KeyUp; Ui.KeyMsg Ui.KeyUp].

Definition named (name : string) (st : CheckStatus) (dur : string) : Check :=
  mkCheck name st dur "" zeroTime true.

Definition zebra : Check := named "zebra" Pass "1s".
Definition alpha : Check := named "alpha" Pass "2s".
Definition beta : Check := named "beta" Fail "3s".

(** Thirteen passing checks, the last two with the same name: two runs of
    one job, told apart by their duration. *)
Definition runFirst : Check := named "a" Pass "10s".
Definition runSecond : Check := named "a" Pass "20s".
Definition thirteen : list Check :=
  [named "t0" Pass "-"; named "t1" Pass "-"; named "t2" Pass "-";
   named "t3" Pass "-"; named "t4" Pass "-"; named "t5" Pass "-";
   named "m" Pass "-"; named "t7" Pass "-"; named "t8" Pass "-";
   named "b" Pass "-"; named "t10" Pass "-"; runFirst; runSecond].

End Instances.

(** * More of the program *)

(** ** More of Go's package strings *)

Module GoText.
Import GoLib.

(** No byte of [s] is [c]. *)
Fixpoint noByte (c : ascii) (s : string) : bool :=
  match s with
  | EmptyString => true
  | String a r => negb (Ascii.eqb a c) && noByte c r
  end.

(** [strings.TrimRight(s, cutset)] for a cutset of the one byte [c]. *)
Fixpoint TrimRight (s : string) (c : ascii) : string :=
  match s with
  | EmptyString => EmptyString
  | String a r =>
      match TrimRight r c with
      | EmptyString => if Ascii.eqb a c then EmptyString else String a EmptyString
      | r' => String a r'
      end
  end.

(** [strings.Split(s, sep)] for a separator of the one byte [c]: the
    pieces between the separators, one more than there are separators. *)
Fixpoint Split (s : string) (c : ascii) : list string :=
  match s with
  | EmptyString => [EmptyString]
  | String a r =>
      if Ascii.eqb a c then EmptyString :: Split r c
      else match Split r c with
           | p :: ps => String a p :: ps
           | [] => [String a EmptyString]
           end
  end.

(** [strings.Join(elems, sep)]. *)
Fixpoint Join (elems : list string) (sep : string) : string :=
  match elems with
  | [] => EmptyString
  | [e] => e
  | e :: rest => e ++ sep ++ Join rest sep
  end.

(** [strings.Repeat(" ", n)]; the program never passes a negative
    count. *)
Definition spaces (n : Z) : string :=
  string_of_list_ascii (repeat " "%char (Z.to_nat n)).

(** [parts[i]] for an index the caller has checked. *)
Definition part (parts : list string) (i : nat) : string :=
  nth i parts EmptyString.

End GoText.

(** ** main.go *)

Module Main.
Import GoLib GoText Gh.

(** [parsePRURL]; the three results are [repo], [prNumber], [ok]. *)
Definition parsePRURL (url : string) : string * string * bool :=
  let url := TrimRight url "/" in
  let parts := Split url "/" in
  if (len parts <? 7)%Z then ("", "", false)
  else if negb (part parts 2 =? "github.com") || negb (part parts 5 =? "pull")
  then ("", "", false)
  else
    let repo := part parts 3 ++ "/" ++ part parts 4 in
    let prNumber := part parts 6 in
    if prNumber =? "" then ("", "", false)
    else (repo, prNumber, true).

(** How [main] ends: [os.Exit(code)], or the program run on a model. *)
Inductive Outcome : Set :=
| Exit (code : Z)
| Run (m : Ui.model).

(** [time.Duration(n) * time.Second]: a product of 64-bit integers. *)
Definition wrap64 (z : Z) : Z := ((z + 2 ^ 63) mod 2 ^ 64 - 2 ^ 63)%Z.
Definition seconds (n : Z) : Z := wrap64 (n * 1000000000).

(** [main] up to the start of the program: [interval] is the value of
    the flag, [args] are [flag.Args()], [ghOnPath] tells whether
    [exec.LookPath("gh")] succeeds.  What is printed is left out. *)
Definition main (interval : Z) (args : list string) (ghOnPath : bool)
  : Outcome :=
  if (len args >? 2)%Z then Exit 1
  else if negb ghOnPath then Exit 1
  else
    let dur := seconds interval in
    match args with
    | [] => Run (Ui.newSelectModel dur)
    | [a] =>
        match parsePRURL a with
        | (repo, prNumber, true) => Run (Ui.newModel repo prNumber dur)
        | (_, _, false) => Exit 1
        end
    | a :: b :: _ => Run (Ui.newModel a b dur)
    end.

(** A segment of a path: no slash in it. *)
Definition slashFree (s : string) : Prop := noByte "/" s = true.

(** The URL of a pull request as GitHub writes it. *)
Definition prURL (owner name number : string) : string :=
  "https://github.com/" ++ owner ++ "/" ++ name ++ "/pull/" ++ number.

End Main.

(** ** More of gh.go *)

Module GhMore.
Import GoLib Gh.

(** [CheckStatus.String]; the status type of the model has the four
    constants only, so the result "UNKNOWN" of the method has no case
    here. *)
Definition CheckStatus_String (s : CheckStatus) : string :=
  match s with
  | Running => "RUNNING"
  | Fail => "FAIL"
  | Pass => "PASS"
  | Skipped => "SKIPPED"
  end.

(** What the sorter compares: the status and the name of a check. *)
Definition sortKey (c : Check) : Z * string := (rank (Status c), Name c).

(** The order of the keys: by rank, then by name. *)
Definition keyLe (k1 k2 : Z * string) : Prop :=
  (fst k1 < fst k2)%Z
  \/ (fst k1 = fst k2 /\ String.leb (snd k1) (snd k2) = true).

(** A decimal digit. *)
Definition isDigit (a : ascii) : bool :=
  let n := nat_of_ascii a in (48 <=? n)%nat && (n <=? 57)%nat.

Fixpoint allDigits (s : string) : bool :=
  match s with
  | EmptyString => true
  | String a r => isDigit a && allDigits r
  end.

(** The seconds within a minute. *)
Definition range60 : list Z := map Z.of_nat (seq 0 60).


End GhMore.

(** ** The rendering of ui.go, the revision with the PR picker *)

Module Render.
Import GoLib GoText Gh GhMore Ui.

(** The styles of ui.go; [Reversed s] is [s.Reverse(true)]. *)
Inductive Style : Set :=
| stylePass | styleFail | styleRunning | styleSkipped
| styleBold | styleDim | styleUnder | styleReverse
| styleHeader | styleRepo | stylePRNumber | styleTitle | styleUpdatedAt
| styleSelected | styleSelectedBg
| Reversed (s : Style).

Definition nl : string := String "010" "".

Definition statusStyle (s : CheckStatus) : Style :=
  match s with
  | Pass => stylePass
  | Fail => styleFail
  | Running => styleRunning
  | Skipped => styleSkipped
  end.

(** The loop [counts[c.Status]++], read at one status. *)
Definition countOf (st : CheckStatus) (checks : list Check) : Z :=
  fold_left (fun n c => if CheckStatus_eqb (Status c) st then (n + 1)%Z else n)
            checks 0%Z.

(** The [parts] of the summary line of [View]. *)
Definition summaryParts (checks : list Check) : list string :=
  (if (countOf Pass checks >? 0)%Z
   then [itoa (countOf Pass checks) ++ " passed"] else [])
  ++ (if (countOf Running checks >? 0)%Z
      then [itoa (countOf Running checks) ++ " running"] else [])
  ++ (if (countOf Fail checks >? 0)%Z
      then [itoa (countOf Fail checks) ++ " failed"] else [])
  ++ (if (countOf Skipped checks >? 0)%Z
      then [itoa (countOf Skipped checks) ++ " skipped"] else []).

(** The [summary] of [View]. *)
Definition summaryLine (checks : list Check) : string :=
  let summary := "Checks: " ++ itoa (len checks) ++ " total" in
  let parts := summaryParts checks in
  if (len parts >? 0)%Z then summary ++ " - " ++ Join parts ", " else summary.

(** The name column of a table row of [View]. *)
Definition nameColumn (maxWidth : Z) (check : Check) : string :=
  let nameMaxW := (maxWidth - 12 - 12)%Z in
  let nameMaxW := if (nameMaxW <? 0)%Z then 0%Z else nameMaxW in
  if (slen (Name check) >? nameMaxW)%Z
  then substring 0 (Z.to_nat nameMaxW) (Name check)
  else Name check.

(** The newlines written by [for i := from; i < to; i++]. *)
Definition newlines (from to : Z) : string :=
  string_of_list_ascii (repeat "010"%char (Z.to_nat (to - from))).

Section Rendering.
(** What the rendering takes from outside: [Render] of lipgloss,
    [time.Now().Format("2006-01-02 15:04:05")], [time.Since] as a
    duration in nanoseconds, the conversions of a duration through
    [float64] ([int(d.Seconds())], [int(d.Minutes())], [int(d.Hours())],
    [int(d.Hours()/24)]), [time.Parse(time.RFC3339, _)], and the number of
    runes of a string, which [fmt] pads by. *)
Variable Render : Style -> string -> string.
Variable nowText : string.
Variable Since : Time -> Z.
Variable wholeSeconds wholeMinutes wholeHours wholeDays : Z -> Z.
Variable parseRFC3339 : string -> option Time.
Variable runeCount : string -> Z.

(** [fmt.Sprintf("%-*s", w, s)]. *)
Definition padRight (w : Z) (s : string) : string :=
  s ++ spaces (w - runeCount s).

(** [relativeTime]. *)
Definition relativeTime (updatedAt : string) : string :=
  match parseRFC3339 updatedAt with
  | None => ""
  | Some t =>
      let d := Since t in
      if (d <? 60 * 1000000000)%Z then "just now"
      else if (d <? 3600 * 1000000000)%Z then itoa (wholeMinutes d) ++ "m ago"
      else if (d <? 24 * (3600 * 1000000000))%Z then itoa (wholeHours d) ++ "h ago"
      else itoa (wholeDays d) ++ "d ago"
  end.

(** The duration shown in a table row of [View]: computed at render time
    for a check that is not completed and has a start time. *)
Definition liveDuration (check : Check) : string :=
  if negb (Completed check) && negb (IsZero (StartedAt check)) then
    let delta := wholeSeconds (Since (StartedAt check)) in
    let delta := if (delta <? 0)%Z then 0%Z else delta in
    let minutes := Z.quot delta 60 in
    let seconds := Z.rem delta 60 in
    if (minutes >? 0)%Z then itoa minutes ++ "m" ++ itoa02 seconds ++ "s"
    else itoa seconds ++ "s"
  else Duration check.

(** One turn of the loop over the table rows of [View]. *)
Definition tableRow (m : model) (idx : Z) (check : Check) : string :=
  let dur := liveDuration check in
  let isSelected := (idx =? selected m)%Z in
  let marker := if isSelected then "> " else "  " in
  let statusStr := marker ++ padRight 10 (CheckStatus_String (Status check)) in
  let durStr := padRight 12 dur in
  let nameStr := nameColumn (width m) check in
  let styledStatus :=
    if isSelected then Render (Reversed (statusStyle (Status check))) statusStr
    else Render (statusStyle (Status check)) statusStr in
  (if isSelected then styledStatus ++ Render styleReverse (durStr ++ nameStr)
   else styledStatus ++ durStr ++ nameStr) ++ nl.

(** The loop over the table rows of [View], from index [idx] on. *)
Fixpoint tableRows (m : model) (idx : Z) (checks : list Check) : string :=
  match checks with
  | [] => ""
  | check :: rest =>
      if (idx >=? maxRows m)%Z then ""
      else tableRow m idx check ++ tableRows m (idx + 1) rest
  end.

(** The header line of [View], before truncation. *)
Definition headerLine (m : model) : string :=
  let header := "PR Checks - " ++ repo m ++ " #" ++ prNumber m in
  let pad := (width m - slen header - slen nowText)%Z in
  let pad := if (pad <? 1)%Z then 1%Z else pad in
  header ++ spaces pad ++ nowText.

(** One turn of the loop over the PRs of [viewSelecting]. *)
Definition prEntry (m : model) (idx : Z) (pr : PRSummary) : string :=
  let isSelected := (idx =? selected m)%Z in
  let marker :=
    if isSelected
    then Render styleSelected (String "226" (String "150" (String "184" " ")))
    else "  " in
  let repoStr := Render styleRepo (Repo pr) in
  let numStr := Render stylePRNumber ("#" ++ itoa (Number pr)) in
  let line1 := marker ++ repoStr ++ " " ++ numStr in
  let titleStr := Render styleTitle (sTitle pr) in
  let updated := relativeTime (UpdatedAt pr) in
  let line2 := "  " ++ titleStr in
  let line2 :=
    if negb (updated =? "")
    then line2 ++ "  " ++ Render styleUpdatedAt ("updated " ++ updated)
    else line2 in
  (if isSelected
   then Render styleSelectedBg line1 ++ nl ++ Render styleSelectedBg line2
   else line1 ++ nl ++ line2) ++ nl ++ nl.

Fixpoint prEntries (m : model) (idx : Z) (l : list PRSummary) : string :=
  match l with
  | [] => ""
  | pr :: rest => prEntry m idx pr ++ prEntries m (idx + 1) rest
  end.

(** [model.viewSelecting]. *)
Definition viewSelecting (m : model) : string :=
  if (width m =? 0)%Z then "Loading..."
  else
    let maxWidth := width m in
    let b := Render styleHeader "  prtop" ++ nl
             ++ Render styleDim "  Your recent open pull requests" ++ nl ++ nl in
    match err m with
    | Some e =>
        b ++ Render styleFail (truncate ("Error: " ++ e) maxWidth) ++ nl ++ nl
          ++ Render styleDim "r: retry | q: quit"
    | None =>
        if loading m then b ++ "Fetching your open PRs..."
        else if (len (prs m) =? 0)%Z then
          b ++ "No open PRs found." ++ nl ++ nl
            ++ Render styleDim "r: retry | q: quit"
        else
          let linesUsed := (3 + len (prs m) * 3)%Z in
          b ++ prEntries m 0 (prs m)
            ++ newlines linesUsed (height m - 1)
            ++ Render styleDim
                 (truncate "up/down: select | enter: view PR | q: quit" maxWidth)
    end.

(** [model.View]. *)
Definition View (m : model) : string :=
  match mode m with
  | modeSelecting => viewSelecting m
  | modeViewing =>
      if (width m =? 0)%Z then "Loading..."
      else
        let maxWidth := width m in
        let b := Render styleBold (truncate (headerLine m) maxWidth) ++ nl in
        match err m with
        | Some e =>
            b ++ Render styleFail (truncate ("Error: " ++ e) maxWidth) ++ nl ++ nl
              ++ Render styleDim "r: retry | q: quit"
        | None =>
            match prData m with
            | None => b ++ nl ++ "Fetching PR data..."
            | Some d =>
                let b :=
                  if negb (Title d =? "")
                  then b ++ truncate (Title d) maxWidth ++ nl else b in
                let info := "Branch: " ++ HeadRefName d in
                let info :=
                  if negb (URL d =? "") then info ++ "    URL: " ++ URL d
                  else info in
                let b := b ++ Render styleDim (truncate info maxWidth) ++ nl in
                let b := b ++ nl in
                let checks := Checks d in
                let b := b ++ Render styleBold
                                (truncate (summaryLine checks) maxWidth)
                           ++ nl ++ nl in
                let tableHdr :=
                  "  " ++ padRight 10 "STATUS" ++ padRight 12 "DURATION" ++ "NAME" in
                let b := b ++ Render styleUnder (truncate tableHdr maxWidth) ++ nl in
                let b := b ++ tableRows m 0 checks in
                let linesUsed :=
                  if (len checks >? maxRows m)%Z then (7 + maxRows m)%Z
                  else (7 + len checks)%Z in
                let b := b ++ newlines linesUsed (height m - 1) in
                let footer :=
                  "Refresh: " ++ itoa (wholeSeconds (interval m))
                  ++ "s | up/down: select | enter: open | r: refresh | q: quit" in
                b ++ Render styleDim (truncate footer maxWidth)
            end
        end
  end.

End Rendering.

(** Two models that [View] cannot tell apart while an error is held or
    the width is not known: same mode, target, width and error. *)
Definition sameBanner (m1 m2 : model) : Prop :=
  mode m1 = mode m2 /\ repo m1 = repo m2 /\ prNumber m1 = prNumber m2
  /\ width m1 = width m2 /\ err m1 = err m2.

End Render.

(** ** Inputs for the rest of the program *)

Module MoreInstances.
Import GoLib Gh Ui Render Instances.

(** [Render] on a terminal without colour: the text as it is. *)
Definition plain (_ : Style) (s : string) : string := s.

(** [time.Since] at the reading [clock], 2024-01-01T10:05:00Z. *)
Definition sinceClock (t : Time) : Z := Sub clock t.

(** [time.Since] at an earlier reading, 2024-01-01T10:00:50Z. *)
Definition sinceEarly (t : Time) : Z := Sub (63839700050 * 1000000000)%Z t.

(** Whole minutes, hours and days of a duration, truncated towards zero. *)
Definition truncMinutes (d : Z) : Z := Z.quot d (60 * 1000000000).
Definition truncHours (d : Z) : Z := Z.quot d (3600 * 1000000000).
Definition truncDays (d : Z) : Z := Z.quot d (24 * 3600 * 1000000000).

Definition nowText : string := "2024-01-01 10:05:00".

(** A checks view before the first size message, and one that was sized
    down to width 0 after data came in. *)
Definition unsized : model := newModel "o/r" "1" 5.
Definition unsizedWithData : model :=
  mkModel modeViewing "o/r" "1" 5 (Some mixed) None 2 0 0 [] false.

(** Two checks views without data: different selection and height. *)
Definition waiting : model :=
  mkModel modeViewing "o/r" "1" 5 None None 0 80 24 [] false.
Definition waitingTall : model :=
  mkModel modeViewing "o/r" "1" 5 None None 3 80 40 [] false.

(** A checks view on a terminal ten columns wide. *)
Definition narrow : model :=
  mkModel modeViewing "o/r" "1" 5 (Some mixed) None 0 10 40 [] false.

(** The picker over two PRs, the second one selected, and the messages
    that lead to it from [newSelectModel]. *)
Definition twoPRs : list PRSummary :=
  [mkSummary "o/r" 12 "Fix the parser" "https://github.com/o/r/pull/12"
             "2024-01-01T10:00:00Z";
   mkSummary "o/s" 7 "Add tests" "https://github.com/o/s/pull/7"
             "2024-01-01T10:02:35Z"].

Definition toPicker : list Msg :=
  [WindowSizeMsg 80 24; prListMsg twoPRs None; KeyMsg KeyDown].

Definition pickerAtOne : model :=
  mkModel modeSelecting "" "" 5 None None 1 80 24 twoPRs false.

(** A response of gh with three records. *)
Definition rollup : ghPRResponse :=
  mkResp "Test PR" "feature" "https://github.com/o/r/pull/1"
         [jenkinsItem; buildItem; pendingItem].

End MoreInstances.

(** * Properties *)

Import GoLib Instances.

(** ** The status pipeline of gh.go *)

Section StatusPipeline.
Import Gh StatusTable.
Variable ToUpper TrimSpace : string -> string.

Lemma member_In token set : member token set = true <-> In token set.
Proof.
  unfold member. rewrite existsb_exists. split.
  - intros (x & Hx & E). apply String.eqb_eq in E. now subst.
  - intros H. exists token. split; [assumption | apply String.eqb_refl].
Qed.

(** C1. For every input string [normalizeStatus] returns a status, and it
    is the one the documented table gives for the input once trimmed and
    uppercased: SUCCESS, PASS -> Pass; FAILURE, FAIL, ERROR, TIMED_OUT,
    ACTION_REQUIRED, STARTUP_FAILURE -> Fail; IN_PROGRESS, RUNNING,
    PENDING, QUEUED, WAITING, REQUESTED -> Running; SKIPPED, CANCELLED,
    NEUTRAL, STALE -> Skipped; any other string, the empty one included,
    -> Running. *)
Theorem normalizeStatus_table (raw : string) :
  normalizeStatus ToUpper TrimSpace raw
  = documentedStatus (ToUpper (TrimSpace raw)).
Proof.
  unfold normalizeStatus, documentedStatus, member, passTokens, failTokens,
    runningTokens, skippedTokens, existsb.
  set (t := ToUpper (TrimSpace raw)).
  rewrite !orb_false_r.
  repeat match goal with
         | |- context [(t =? ?k)%string] => destruct (t =? k)%string; cbn [orb]
         end; reflexivity.
Qed.

(** The table, token by token. *)
Lemma documentedStatus_tokens (token : string) :
  (In token passTokens -> documentedStatus token = Pass)
  /\ (In token failTokens -> documentedStatus token = Fail)
  /\ (In token runningTokens -> documentedStatus token = Running)
  /\ (In token skippedTokens -> documentedStatus token = Skipped)
  /\ (~ In token (passTokens ++ failTokens ++ skippedTokens) ->
      documentedStatus token = Running).
Proof.
  repeat split; intros H.
  - cbn in H. intuition (subst; reflexivity).
  - cbn in H. intuition (subst; reflexivity).
  - cbn in H. intuition (subst; reflexivity).
  - cbn in H. intuition (subst; reflexivity).
  - unfold documentedStatus.
    destruct (member token passTokens) eqn:E1.
    { exfalso. apply H. apply member_In in E1. apply in_or_app. now left. }
    destruct (member token failTokens) eqn:E2.
    { exfalso. apply H. apply member_In in E2.
      apply in_or_app. right. apply in_or_app. now left. }
    destruct (member token runningTokens); [reflexivity|].
    destruct (member token skippedTokens) eqn:E4; [|reflexivity].
    exfalso. apply H. apply member_In in E4.
    apply in_or_app. right. apply in_or_app. now right.
Qed.

Variable parseRFC3339 : string -> option Time.
Variable now : Time.
Variable wholeSeconds : Z -> Z.

Let itemCheck := itemCheck ToUpper TrimSpace parseRFC3339 now wholeSeconds.
Let itemStatus := itemStatus ToUpper TrimSpace.
Let parseDuration := parseDuration parseRFC3339 now wholeSeconds.

Lemma itemCheck_Status (item : ghCheckItem) :
  Status (itemCheck item) = itemStatus item.
Proof.
  unfold itemCheck, Gh.itemCheck.
  destruct (Gh.parseDuration _ _ _ _ _) as [[d t] c].
  destruct (forceCompleted _ _ _); reflexivity.
Qed.

Lemma itemCheck_forced (item : ghCheckItem) :
  forceCompleted ToUpper TrimSpace item = true ->
  Completed (itemCheck item) = true /\ Duration (itemCheck item) = "???".
Proof.
  intros F. unfold itemCheck, Gh.itemCheck.
  destruct (Gh.parseDuration _ _ _ _ _) as [[d t] c].
  rewrite F. split; reflexivity.
Qed.

Lemma itemCheck_kept (item : ghCheckItem) :
  forceCompleted ToUpper TrimSpace item = false ->
  Duration (itemCheck item)
  = fst (fst (parseDuration (iStartedAt item) (itemCompletedAt item)))
  /\ Completed (itemCheck item)
     = snd (parseDuration (iStartedAt item) (itemCompletedAt item)).
Proof.
  intros F. unfold itemCheck, Gh.itemCheck, parseDuration.
  destruct (Gh.parseDuration _ _ _ _ _) as [[d t] c].
  rewrite F. split; reflexivity.
Qed.

Lemma CheckStatus_eqb_eq (a b : CheckStatus) :
  CheckStatus_eqb a b = true <-> a = b.
Proof. destruct a, b; cbv; split; intros H; congruence. Qed.

(** C6. The status of the check built from an upstream record is the
    normalisation of the first non-empty field among conclusion, status
    and state, in that order: the conclusion when it is non-empty, else
    the status field when it is non-empty, else the state field. *)
Theorem itemStatus_precedence (item : ghCheckItem) :
  Status (itemCheck item)
  = normalizeStatus ToUpper TrimSpace
      (firstNonEmpty [iConclusion item; iStatus item; iState item])
  /\ firstNonEmpty [iConclusion item; iStatus item; iState item]
     = (if negb (iConclusion item =? "") then iConclusion item
        else if negb (iStatus item =? "") then iStatus item
        else iState item).
Proof.
  rewrite itemCheck_Status. unfold itemStatus, Gh.itemStatus, firstNonEmpty.
  destruct (iConclusion item =? "")%string, (iStatus item =? "")%string;
    cbn [negb]; try (split; reflexivity).
  destruct (String.eqb_spec (iState item) "") as [E | _];
    [rewrite E|]; split; reflexivity.
Qed.

Lemma itemCompletedAt_absent (item : ghCheckItem) :
  completionAbsent item -> itemCompletedAt item = "".
Proof.
  unfold completionAbsent, itemCompletedAt. intros [E | E].
  - rewrite E. reflexivity.
  - rewrite E. reflexivity.
Qed.

Lemma itemCompletedAt_present (item : ghCheckItem) :
  ~ completionAbsent item ->
  itemCompletedAt item = iCompletedAt item /\ itemCompletedAt item <> "".
Proof.
  unfold completionAbsent, itemCompletedAt. intros H.
  destruct (HasPrefix (iCompletedAt item) "0001") eqn:E.
  - exfalso. apply H. now right.
  - split; [reflexivity|]. intros E'. apply H. now left.
Qed.

(** C7. A StatusContext record without completion timestamp whose status
    is not Running yields a check that is completed and whose duration is
    "???"; every other record keeps the duration and the completed flag
    that [parseDuration] computes from its timestamps. *)
Theorem statusContext_forced (item : ghCheckItem) :
  (iTypename item = "StatusContext" -> completionAbsent item ->
   itemStatus item <> Running ->
   Completed (itemCheck item) = true /\ Duration (itemCheck item) = "???")
  /\ (~ completionAbsent item ->
      Duration (itemCheck item)
      = fst (fst (parseDuration (iStartedAt item) (iCompletedAt item)))
      /\ Completed (itemCheck item)
         = snd (parseDuration (iStartedAt item) (iCompletedAt item)))
  /\ (completionAbsent item ->
      iTypename item <> "StatusContext" \/ itemStatus item = Running ->
      Duration (itemCheck item)
      = fst (fst (parseDuration (iStartedAt item) ""))
      /\ Completed (itemCheck item)
         = snd (parseDuration (iStartedAt item) "")).
Proof.
  split; [|split].
  - intros Ht Ha Hs. apply itemCheck_forced. unfold forceCompleted.
    rewrite (itemCompletedAt_absent _ Ha), Ht.
    rewrite !String.eqb_refl. cbn [andb].
    destruct (CheckStatus_eqb _ Running) eqn:E; [|reflexivity].
    apply CheckStatus_eqb_eq in E. contradiction.
  - intros Hp. destruct (itemCompletedAt_present _ Hp) as [E NE].
    rewrite <- E. apply itemCheck_kept. unfold forceCompleted.
    apply String.eqb_neq in NE. rewrite NE. reflexivity.
  - intros Ha Hor. rewrite <- (itemCompletedAt_absent _ Ha).
    apply itemCheck_kept. unfold forceCompleted.
    destruct Hor as [Ht | Hs].
    + apply String.eqb_neq in Ht. rewrite Ht, andb_false_r. reflexivity.
    + fold itemStatus. rewrite Hs. apply andb_false_r.
Qed.

Lemma Sub_negative (e s : Time) : (e < s)%Z -> (Sub e s < 0)%Z.
Proof.
  unfold Sub, minDuration, maxDuration.
  change (2 ^ 63)%Z with 9223372036854775808%Z. lia.
Qed.

Lemma clamp_max (d : Z) : (if (d <? 0)%Z then 0%Z else d) = Z.max 0 d.
Proof. destruct (Z.ltb_spec d 0); lia. Qed.

(** C10. [parseDuration] never measures a negative time: the seconds it
    formats are clamped at 0, and an end before the start gives "0s".
    An empty or invalid [startedAt] gives ("-", zero time, false).  A
    [completedAt] that is present but invalid gives a check that is not
    completed, measured against the current clock. *)
Theorem parseDuration_cases
  (wholeSeconds_sign : forall d, (d < 0)%Z -> (wholeSeconds d <= 0)%Z)
  (startedAt completedAt : string) :
  (startedAt = "" \/ parseRFC3339 startedAt = None ->
   parseDuration startedAt completedAt = ("-", zeroTime, false))
  /\ (forall start,
        startedAt <> "" -> parseRFC3339 startedAt = Some start ->
        let measured (e : Time) :=
          formatDuration (Z.max 0 (wholeSeconds (Sub e start))) in
        (forall e, completedAt <> "" -> parseRFC3339 completedAt = Some e ->
                   parseDuration startedAt completedAt = (measured e, start, true)
                   /\ ((e < start)%Z -> measured e = "0s"))
        /\ (completedAt = "" ->
            parseDuration startedAt completedAt = (measured now, start, false))
        /\ (completedAt <> "" -> parseRFC3339 completedAt = None ->
            parseDuration startedAt completedAt = (measured now, start, false))
        /\ ((now < start)%Z -> measured now = "0s")).
Proof.
  assert (Hzero : forall e start, (e < start)%Z ->
            formatDuration (Z.max 0 (wholeSeconds (Sub e start))) = "0s").
  { intros e start Hlt.
    pose proof (wholeSeconds_sign _ (Sub_negative _ _ Hlt)) as Hle.
    replace (Z.max 0 (wholeSeconds (Sub e start))) with 0%Z by lia.
    reflexivity. }
  split.
  - unfold parseDuration, Gh.parseDuration. intros [E | E].
    + rewrite E. reflexivity.
    + rewrite E. destruct (startedAt =? "")%string; reflexivity.
  - intros start NE P measured.
    apply String.eqb_neq in NE.
    unfold parseDuration, Gh.parseDuration. rewrite NE, P.
    split; [|split; [|split]].
    + intros e H H0. split.
      * apply String.eqb_neq in H. rewrite H, H0. cbn [negb].
        now rewrite clamp_max.
      * intros Hlt. now apply Hzero.
    + intros E. rewrite E. cbn [String.eqb negb]. now rewrite clamp_max.
    + intros H H0. apply String.eqb_neq in H. rewrite H, H0. cbn [negb].
      now rewrite clamp_max.
    + intros Hlt. now apply Hzero.
Qed.
End StatusPipeline.

(** The normaliser on concrete inputs, with the ASCII case map and trim. *)
Example normalizeStatus_examples :
let n := Gh.normalizeStatus asciiToUpper asciiTrimSpace in
n "  SUCCESS  " = Gh.Pass /\ n "success" = Gh.Pass /\ n "Success" = Gh.Pass
/\ n (String "009" "FAILURE" ++ String "010" "") = Gh.Fail
/\ n "timed_out" = Gh.Fail /\ n "queued" = Gh.Running
/\ n "neutral" = Gh.Skipped /\ n "" = Gh.Running
/\ n "SOMETHING_ELSE" = Gh.Running.
Proof. cbv. repeat split. Qed.

(** ** The check sorter *)

Section SorterFacts.
Import Gh Sorter.

Lemma ltb_false_leb (a b : string) :
  String.ltb b a = false <-> String.leb a b = true.
Proof.
  unfold String.ltb, String.leb.
  pose proof (String_as_OT.cmp_antisym a b) as H.
  unfold String_as_OT.cmp in H. rewrite H.
  destruct (String.compare b a); cbn; split; congruence.
Qed.

Lemma leb_lt_eq (a b : string) :
  String.leb a b = true <-> a = b \/ String_as_OT.lt a b.
Proof.
  unfold String.leb. split.
  - destruct (String.compare a b) eqn:E; intros H; try discriminate.
    + left. now apply String_as_OT.cmp_eq.
    + right. now apply String_as_OT.cmp_lt.
  - intros [-> | H].
    + assert (E : String.compare b b = Eq) by now apply String_as_OT.cmp_eq.
      now rewrite E.
    + apply String_as_OT.cmp_lt in H. unfold String_as_OT.cmp in H.
      now rewrite H.
Qed.

Lemma leb_trans (a b c : string) :
  String.leb a b = true -> String.leb b c = true -> String.leb a c = true.
Proof.
  rewrite !leb_lt_eq. intros [-> | H1] [-> | H2]; auto.
  right. eapply String_as_OT.lt_trans; eassumption.
Qed.

Lemma rank_inj (a b : CheckStatus) : rank a = rank b -> a = b.
Proof. destruct a, b; cbn; intros H; congruence || lia. Qed.

Lemma checkLess_false_ordered (a b : Check) :
  checkLess b a = false <-> ordered a b.
Proof.
  unfold checkLess, ordered, CheckStatus_eqb, strLt.
  destruct (Z.eqb_spec (rank (Status b)) (rank (Status a))) as [E | NE]; cbn [negb].
  - rewrite ltb_false_leb. split; [intros H; right; split; congruence|].
    intros [H | [_ H]]; [lia | assumption].
  - rewrite Z.ltb_ge. split; [intros H; left; lia|].
    intros [H | [H _]]; [lia | congruence].
Qed.

Lemma ordered_trans (a b c : Check) : ordered a b -> ordered b c -> ordered a c.
Proof.
  unfold ordered. intros [H1 | [E1 L1]] [H2 | [E2 L2]].
  - left; lia.
  - left; lia.
  - left; lia.
  - right. split; [congruence | eapply leb_trans; eassumption].
Qed.

Lemma ordered_total (a b : Check) : ordered a b \/ ordered b a.
Proof.
  unfold ordered.
  destruct (Z.lt_trichotomy (rank (Status a)) (rank (Status b))) as [H | [H | H]].
  - left; now left.
  - destruct (String.leb_total (Name a) (Name b)) as [L | L].
    + left; right; now split.
    + right; right; now split.
  - right; now left.
Qed.

Lemma insert_perm (x : Check) (l : list Check) :
  Permutation (x :: l) (insert checkLess x l).
Proof.
  induction l as [| y r IH]; cbn.
  - apply Permutation_refl.
  - destruct (checkLess y x).
    + eapply perm_trans; [apply perm_swap|]. now apply perm_skip.
    + apply Permutation_refl.
Qed.

Lemma insertionSort_perm (l : list Check) :
  Permutation l (insertionSort checkLess l).
Proof.
  induction l as [| x r IH]; cbn.
  - apply perm_nil.
  - eapply perm_trans; [apply perm_skip, IH | apply insert_perm].
Qed.

Lemma insert_sorted (x : Check) (l : list Check) :
  StronglySorted ordered l -> StronglySorted ordered (insert checkLess x l).
Proof.
  induction 1 as [| y r Hs IH Hall]; cbn.
  - repeat constructor.
  - destruct (checkLess y x) eqn:E.
    + constructor; [assumption|].
      assert (Hyx : ordered y x).
      { destruct (ordered_total y x) as [H | H]; [assumption|].
        apply checkLess_false_ordered in H. congruence. }
      eapply Permutation_Forall; [apply insert_perm|].
      now constructor.
    + apply checkLess_false_ordered in E.
      constructor; [now constructor|].
      constructor; [assumption|].
      eapply Forall_impl; [|exact Hall].
      intros z Hz. eapply ordered_trans; eassumption.
Qed.

Lemma insertionSort_sorted (l : list Check) :
  StronglySorted ordered (insertionSort checkLess l).
Proof.
  induction l as [| x r IH]; cbn.
  - constructor.
  - now apply insert_sorted.
Qed.

Lemma StronglySorted_ordered_iff (l : list Check) :
  StronglySorted (fun a b => checkLess b a = false) l <-> StronglySorted ordered l.
Proof.
  split; induction 1; constructor; auto;
    (eapply Forall_impl; [|eassumption]); intros z Hz;
    now apply checkLess_false_ordered.
Qed.

Lemma insertionSort_contract : sortSliceContract insertionSort.
Proof.
  intros l. split.
  - apply insertionSort_perm.
  - apply StronglySorted_ordered_iff, insertionSort_sorted.
Qed.

Lemma backwardSort_contract : sortSliceContract backwardSort.
Proof.
  intros l. unfold backwardSort. split.
  - eapply perm_trans; [apply Permutation_rev | apply insertionSort_perm].
  - apply StronglySorted_ordered_iff, insertionSort_sorted.
Qed.

End SorterFacts.

Section SorterClaims.
Import Gh Sorter.

(** C2 (as amended). Whatever sort meets the contract of [sort.Slice], the
    sorted checks are a permutation of the input, ordered by status rank
    ascending (Running=0, Fail=1, Pass=2, Skipped=3) and, within a rank,
    by name in ascending lexicographic order.  Nothing is promised on the
    relative order of checks that agree on status and name. *)
Theorem sorter_permutation_ordered
  (sortSlice : (Check -> Check -> bool) -> list Check -> list Check)
  (contract : sortSliceContract sortSlice) (checks : list Check) :
  Permutation checks (sortSlice checkLess checks)
  /\ StronglySorted ordered (sortSlice checkLess checks).
Proof.
  destruct (contract checks) as [P S]. split; [exact P|].
  now apply StronglySorted_ordered_iff.
Qed.

(** The sorted list is the one [fetchPRData] stores in the [PRData]. *)
Lemma prDataOfResponse_Checks ToUpper TrimSpace parseRFC3339 now wholeSeconds
  sortSlice (resp : ghPRResponse) :
  Checks (prDataOfResponse ToUpper TrimSpace parseRFC3339 now wholeSeconds
            sortSlice resp)
  = sortSlice checkLess
      (map (itemCheck ToUpper TrimSpace parseRFC3339 now wholeSeconds)
           (rStatusCheckRollup resp)).
Proof. reflexivity. Qed.

End SorterClaims.

Lemma sorter_permutation_ordered_witness :
  Permutation [zebra; alpha; beta]
    (Sorter.insertionSort Gh.checkLess [zebra; alpha; beta])
  /\ StronglySorted Sorter.ordered
       (Sorter.insertionSort Gh.checkLess [zebra; alpha; beta]).
Proof.
  apply (sorter_permutation_ordered Sorter.insertionSort insertionSort_contract).
Defined.

Example sorter_scenario :
  Sorter.insertionSort Gh.checkLess [zebra; alpha; beta] = [beta; alpha; zebra].
Proof. reflexivity. Qed.

(** C2 (as stated) fails on stability.  A sort that meets the contract of
    [sort.Slice] may return two checks of equal status and name in the
    opposite order: on [thirteen], whose last two checks are the runs
    [runFirst; runSecond] of the job "a", the sorted list starts with
    [runSecond; runFirst].  The other eleven names differ, so every sort
    that meets the contract agrees on the rest of the list; the
    quicksort partition that Go runs on slices of more than twelve
    elements (pivot "m", the median of positions 3, 6 and 9) brings the
    two runs to the front in this opposite order. *)
Lemma sorter_not_stable :
  ~ (forall sortSlice, Sorter.sortSliceContract sortSlice ->
     forall checks,
       Permutation checks (sortSlice Gh.checkLess checks)
       /\ StronglySorted Sorter.ordered (sortSlice Gh.checkLess checks)
       /\ Sorter.stable checks (sortSlice Gh.checkLess checks)).
Proof.
  intros H.
  destruct (H Sorter.backwardSort backwardSort_contract thirteen) as (_ & _ & S).
  specialize (S runFirst). vm_compute in S. discriminate S.
Qed.

Example backwardSort_thirteen :
  map (fun c => (Gh.Name c, Gh.Duration c))
      (firstn 4 (Sorter.backwardSort Gh.checkLess thirteen))
  = [("a", "20s"); ("a", "10s"); ("b", "-"); ("m", "-")].
Proof. reflexivity. Qed.

(** ** Navigation and truncation in ui.go *)

Section NavFacts.
Import Gh Ui Nav.

Lemma moveUp_frame (m : model) :
  activeLen (moveUp m) = activeLen m /\ sameButSelected m (moveUp m).
Proof.
  unfold moveUp, sameButSelected.
  destruct (selected m >? 0)%Z; split; try reflexivity.
  now destruct m.
Qed.

Lemma moveDown_frame (m : model) :
  activeLen (moveDown m) = activeLen m /\ sameButSelected m (moveDown m).
Proof.
  unfold moveDown, sameButSelected, activeLen.
  destruct m as [md rp pn iv pd er sel w h ps ld]; cbn.
  destruct md; cbn.
  - destruct ((len ps >? 0)%Z && (sel <? len ps - 1)%Z); cbn; now split.
  - destruct pd as [d |]; cbn; [|now split].
    destruct (sel <? len (Checks d) - 1)%Z; cbn; now split.
Qed.

Lemma moveUp_inRange (m : model) :
  selectionInRange m -> selectionInRange (moveUp m).
Proof.
  unfold selectionInRange. intros [H1 H2].
  destruct (moveUp_frame m) as [E _]. rewrite E.
  unfold moveUp. destruct (Z.gtb_spec (selected m) 0); cbn; lia.
Qed.

Lemma moveDown_inRange (m : model) :
  selectionInRange m -> selectionInRange (moveDown m).
Proof.
  unfold selectionInRange. intros [H1 H2].
  destruct (moveDown_frame m) as [E _]. rewrite E. clear E.
  unfold moveDown, activeLen in *.
  destruct m as [md rp pn iv pd er sel w h ps ld]; cbn in *.
  destruct md; cbn in *.
  - destruct (Z.gtb_spec (len ps) 0), (Z.ltb_spec sel (len ps - 1)); cbn; lia.
  - destruct pd as [d |]; cbn in *; [|lia].
    destruct (Z.ltb_spec sel (len (Checks d) - 1)); cbn; lia.
Qed.

Lemma nav_Update (m : model) (msg : Msg) :
  isNav msg = true ->
  Update m msg = ret (if isUp msg then moveUp m else moveDown m) CmdNil.
Proof.
  unfold isNav, isUp, isDown.
  destruct msg as [k | | | | |]; try discriminate.
  destruct k; try discriminate; try reflexivity.
  cbn. destruct (String.eqb_spec runes "k") as [-> | Nk]; [reflexivity|].
  destruct (String.eqb_spec runes "j") as [-> | Nj]; [reflexivity|].
  discriminate.
Qed.

Lemma sameButSelected_trans (a b c : model) :
  sameButSelected a b -> sameButSelected b c -> sameButSelected a c.
Proof.
  unfold sameButSelected. intros H1 H2. rewrite H2 at 1. rewrite H1 at 1.
  reflexivity.
Qed.

Lemma updates_nav (msgs : list Msg) :
  forall m, forallb isNav msgs = true -> selectionInRange m ->
  exists m', updates m msgs = Some m'
             /\ activeLen m' = activeLen m
             /\ sameButSelected m m'
             /\ selectionInRange m'.
Proof.
  induction msgs as [| msg rest IH]; intros m Hnav Hin.
  - exists m. split; [reflexivity|]. split; [reflexivity|].
    split; [|assumption]. unfold sameButSelected. now destruct m.
  - cbn in Hnav. apply andb_prop in Hnav. destruct Hnav as [Hmsg Hrest].
    cbn. rewrite (nav_Update _ _ Hmsg). cbn.
    set (m1 := if isUp msg then moveUp m else moveDown m).
    assert (H1 : activeLen m1 = activeLen m /\ sameButSelected m m1
                 /\ selectionInRange m1).
    { subst m1. destruct (isUp msg).
      - destruct (moveUp_frame m). auto using moveUp_inRange.
      - destruct (moveDown_frame m). auto using moveDown_inRange. }
    destruct H1 as (E1 & F1 & I1).
    destruct (IH m1 Hrest I1) as (m' & R & E & F & I).
    exists m'. split; [assumption|]. split; [congruence|].
    split; [|assumption]. eapply sameButSelected_trans; eassumption.
Qed.

(** C8. Starting from index 0, any sequence of move-up and move-down keys
    (arrows or k/j) is handled without failure, changes nothing but the
    selection index, and leaves the index within [0, N-1] for the N > 0
    items of the collection active for the mode (PR list in Selecting,
    check list in Viewing), or at 0 when that collection is empty; a move
    up at index 0 and a move down at index N-1 change nothing. *)
Theorem selection_stays_in_range (m : model) (msgs : list Msg) :
  selected m = 0%Z ->
  forallb isNav msgs = true ->
  (exists m', updates m msgs = Some m'
              /\ sameButSelected m m'
              /\ ((activeLen m > 0)%Z -> (0 <= selected m' <= activeLen m - 1)%Z)
              /\ (activeLen m = 0%Z -> selected m' = 0%Z))
  /\ (forall msg, isUp msg = true -> Update m msg = ret m CmdNil)
  /\ (forall m1 msg, isDown msg = true -> (activeLen m1 > 0)%Z ->
                     selected m1 = (activeLen m1 - 1)%Z ->
                     Update m1 msg = ret m1 CmdNil).
Proof.
  intros H0 Hnav. split; [|split].
  - assert (Hin : selectionInRange m).
    { unfold selectionInRange. split; lia. }
    destruct (updates_nav msgs m Hnav Hin) as (m' & R & E & F & [I1 I2]).
    exists m'. rewrite E in I1, I2. auto.
  - intros msg Hup.
    assert (Hn : isNav msg = true) by (unfold isNav; now rewrite Hup).
    rewrite (nav_Update _ _ Hn), Hup. unfold moveUp. rewrite H0. reflexivity.
  - intros m1 msg Hd Hpos Hlast.
    assert (Hn : isNav msg = true) by (unfold isNav; rewrite Hd; apply orb_true_r).
    rewrite (nav_Update _ _ Hn).
    assert (Hu : isUp msg = false).
    { unfold isUp, isDown in *. destruct msg as [k | | | | |]; try discriminate.
      destruct k; try discriminate; try reflexivity.
      apply String.eqb_eq in Hd. now subst. }
    rewrite Hu. f_equal. f_equal.
    unfold moveDown, activeLen in *.
    destruct (mode m1).
    + rewrite Hlast, Z.ltb_irrefl, andb_false_r. reflexivity.
    + destruct (prData m1); [|reflexivity].
      rewrite Hlast, Z.ltb_irrefl. reflexivity.
Qed.

Lemma substring_prefix (n : nat) :
  forall s, (n <= String.length s)%nat ->
  exists rest, s = substring 0 n s ++ rest
               /\ String.length (substring 0 n s) = n.
Proof.
  induction n as [| n IH]; intros s Hn.
  - exists s. destruct s; cbn; split; reflexivity.
  - destruct s as [| c s]; cbn in Hn; [lia|].
    destruct (IH s ltac:(lia)) as (rest & E & L).
    exists rest. cbn. split; [now rewrite <- E | now rewrite L].
Qed.

(** C9. [truncate] returns [s] itself when [maxWidth] is zero or negative
    and when [s] has at most [maxWidth] bytes; otherwise it returns the
    first [maxWidth] bytes of [s]. *)
Theorem truncate_bytes (s : string) (maxWidth : Z) :
  ((maxWidth <= 0)%Z \/ (slen s <= maxWidth)%Z -> truncate s maxWidth = s)
  /\ ((0 < maxWidth < slen s)%Z ->
      truncate s maxWidth = substring 0 (Z.to_nat maxWidth) s
      /\ slen (truncate s maxWidth) = maxWidth
      /\ exists rest, s = truncate s maxWidth ++ rest).
Proof.
  unfold truncate, slen. split.
  - intros [H | H].
    + destruct (Z.gtb_spec maxWidth 0); [lia|]. now rewrite andb_false_r.
    + destruct (Z.gtb_spec (Z.of_nat (String.length s)) maxWidth); [lia|].
      reflexivity.
  - intros [H1 H2].
    destruct (Z.gtb_spec (Z.of_nat (String.length s)) maxWidth); [|lia].
    destruct (Z.gtb_spec maxWidth 0); [|lia]. cbn [andb].
    destruct (substring_prefix (Z.to_nat maxWidth) s ltac:(lia)) as (rest & E & L).
    split; [reflexivity|]. split; [rewrite L; lia|].
    now exists rest.
Qed.

End NavFacts.

(** ** Filter, scroll and fetch results in the session engine *)

Section SessionFacts.
Import Gh Session SessionSpec.

Lemma dropSkipped_filter (checks : list Check) :
  dropSkipped checks = filter (fun c => negb (isSkipped c)) checks.
Proof.
  induction checks as [| c r IH]; cbn; [reflexivity|].
  destruct (isSkipped c); cbn; now rewrite IH.
Qed.

Lemma dropSkipped_Subsequence (checks : list Check) :
  Subsequence (dropSkipped checks) checks.
Proof.
  induction checks as [| c r IH]; cbn; [constructor|].
  destruct (isSkipped c); now constructor.
Qed.

Lemma isSkipped_true (c : Check) : isSkipped c = true <-> Status c = Skipped.
Proof. unfold isSkipped. destruct (Status c); cbv; split; congruence. Qed.

Lemma dropSkipped_In (checks : list Check) (c : Check) :
  In c (dropSkipped checks) <-> In c checks /\ Status c <> Skipped.
Proof.
  rewrite dropSkipped_filter, filter_In, negb_true_iff.
  rewrite <- isSkipped_true. destruct (isSkipped c); intuition congruence.
Qed.

Lemma countNotSkipped_acc (checks : list Check) (n : Z) :
  fold_left (fun n c => if isSkipped c then n else (n + 1)%Z) checks n
  = (n + len (dropSkipped checks))%Z.
Proof.
  revert n. induction checks as [| c r IH]; intros n; cbn.
  - unfold len. cbn. lia.
  - rewrite IH. destruct (isSkipped c); [reflexivity|].
    unfold len. cbn [List.length]. lia.
Qed.

Lemma dropSkipped_length (checks : list Check) :
  len (dropSkipped checks) = countNotSkipped checks.
Proof. unfold countNotSkipped. rewrite countNotSkipped_acc. lia. Qed.

Lemma visibleRows_pos (s : SessionState) : (1 <= visibleRows s)%Z.
Proof. unfold visibleRows. destruct (Z.ltb_spec (height s - 8) 1); lia. Qed.

Lemma adjustScroll_fields (s : SessionState) :
  selected (adjustScroll s) = selected s
  /\ visibleRows (adjustScroll s) = visibleRows s
  /\ filteredChecks (adjustScroll s) = filteredChecks s
  /\ mode (adjustScroll s) = mode s
  /\ prData (adjustScroll s) = prData s
  /\ err (adjustScroll s) = err s
  /\ hideSkipped (adjustScroll s) = hideSkipped s.
Proof.
  unfold adjustScroll.
  destruct (selected s >=? scrollOff s + visibleRows s)%Z;
    [|destruct (selected s <? scrollOff s)%Z]; repeat split.
Qed.


Lemma adjustScroll_zero (s : SessionState) :
  scrollOff s = 0%Z -> (0 <= selected s < visibleRows s)%Z ->
  scrollOff (adjustScroll s) = 0%Z.
Proof.
  intros H0 Hs. unfold adjustScroll.
  destruct (Z.geb_spec (selected s) (scrollOff s + visibleRows s)); cbn; [lia|].
  destruct (Z.ltb_spec (selected s) (scrollOff s)); cbn; lia.
Qed.


Lemma step_cases (s : SessionState) (e : Event) :
  let t := fst (transition s e) in
  fst (step s e) = t
  \/ (fst (step s e) = adjustScroll t /\ mode t = modeViewing
      /\ selected t <> selected s).
Proof.
  cbv zeta. unfold step. destruct (transition s e) as [t cmds]. cbn [fst].
  destruct (mode t) eqn:Hm; [now left|].
  destruct (Z.eqb_spec (selected t) (selected s)); [now left|].
  right. now repeat split.
Qed.


(** C4. Both constructors set the hide-skipped flag; [filteredChecks] is
    the whole check list when the flag is false and otherwise the checks
    that are not Skipped, in their order (so as many as there are
    non-Skipped checks); the filter toggle in Viewing flips the flag and
    puts the selection index and the scroll offset back to 0. *)
Theorem filter_flag_and_toggle :
  (forall r p i, hideSkipped (newModel r p i) = true)
  /\ (forall i, hideSkipped (newSelectModel i) = true)
  /\ (forall s d, prData s = Some d -> hideSkipped s = false ->
                  filteredChecks s = Checks d)
  /\ (forall s d, prData s = Some d -> hideSkipped s = true ->
                  Subsequence (filteredChecks s) (Checks d)
                  /\ (forall c, In c (filteredChecks s)
                                <-> In c (Checks d) /\ Status c <> Skipped)
                  /\ filteredChecks s
                     = filter (fun c => negb (isSkipped c)) (Checks d)
                  /\ len (filteredChecks s) = countNotSkipped (Checks d))
  /\ (forall s, mode s = modeViewing ->
                hideSkipped (fst (step s ToggleFilter)) = negb (hideSkipped s)
                /\ selected (fst (step s ToggleFilter)) = 0%Z
                /\ scrollOff (fst (step s ToggleFilter)) = 0%Z).
Proof.
  split; [reflexivity|]. split; [reflexivity|]. split; [|split].
  - intros s d Hd Hf. unfold filteredChecks. now rewrite Hd, Hf.
  - intros s d Hd Hf. unfold filteredChecks. rewrite Hd, Hf.
    split; [apply dropSkipped_Subsequence|].
    split; [intros c; apply dropSkipped_In|].
    split; [apply dropSkipped_filter | apply dropSkipped_length].
  - intros s Hm.
    set (t := fst (transition s ToggleFilter)).
    assert (Ht : hideSkipped t = negb (hideSkipped s)
                 /\ selected t = 0%Z /\ scrollOff t = 0%Z).
    { subst t. cbn. rewrite Hm. cbn. now repeat split. }
    destruct Ht as (Hf & Hs & Ho).
    destruct (step_cases s ToggleFilter) as [E | [E _]]; fold t in E; rewrite E.
    + now repeat split.
    + destruct (adjustScroll_fields t) as (Es & _ & _ & _ & _ & _ & Eh).
      pose proof (visibleRows_pos t).
      rewrite Es, Eh, adjustScroll_zero by lia. now repeat split.
Qed.

End SessionFacts.

Section ScrollAndFetch.
Import Gh Session SessionSpec.



Lemma clampSelected_spec (s : SessionState) :
  (0 <= selected s)%Z ->
  filteredChecks (clampSelected s) = filteredChecks s
  /\ prData (clampSelected s) = prData s
  /\ err (clampSelected s) = err s
  /\ ((len (filteredChecks s) > 0)%Z ->
      selected (clampSelected s)
      = Z.min (selected s) (len (filteredChecks s) - 1))
  /\ (len (filteredChecks s) = 0%Z -> selected (clampSelected s) = 0%Z).
Proof.
  intros Hs. unfold clampSelected.
  set (n := len (filteredChecks s)).
  destruct (Z.gtb_spec n 0) as [Hn | Hn];
    [destruct (Z.geb_spec (selected s) n) as [Hg | Hg]|].
  - repeat split; cbn [selected setSelected]; lia.
  - repeat split; lia.
  - repeat split; cbn [selected setSelected]; lia.
Qed.

Lemma activeCount_adjustScroll (s : SessionState) :
  activeCount (adjustScroll s) = activeCount s.
Proof.
  unfold adjustScroll.
  destruct (selected s >=? scrollOff s + visibleRows s)%Z;
    [|destruct (selected s <? scrollOff s)%Z]; reflexivity.
Qed.

Lemma transition_selectionInvariant (s : SessionState) (e : Event) :
  selectionInvariant s -> selectionInvariant (fst (transition s e)).
Proof.
  unfold selectionInvariant. intros [H0 H1].
  destruct e; cbn.
  - destruct (Z.ltb_spec (selected s) (activeCount s - 1)); cbn; [|now split].
    split; [lia|]. left. change (activeCount (setSelected s _)) with (activeCount s). lia.
  - destruct (Z.gtb_spec (selected s) 0); cbn; [|now split].
    split; [lia|]. left. change (activeCount (setSelected s _)) with (activeCount s). lia.
  - destruct (mode s) eqn:Em.
    + destruct (Ui.index (prs s) (selected s)); cbn; [split; [lia | now right] | now split].
    + destruct (Ui.index (filteredChecks s) (selected s)) as [c |]; [|now split].
      destruct (negb (DetailsURL c =? "")); now split.
  - destruct (mode s) eqn:Em; cbn; [|now split].
    change (activeCount (setLoading s true)) with (activeCount s). now split.
  - destruct (mode s) eqn:Em; cbn; [now split|]. split; [lia | now right].
  - destruct (mode s) eqn:Em; cbn; [now split|].
    destruct (canGoBack s); cbn; [split; [lia | now right] | now split].
  - destruct (mode s); now split.
  - destruct r as [l | msg]; cbn; [split; [lia | now right]|].
    change (activeCount (setErr (setLoading s false) (Some msg)))
      with (activeCount s). now split.
  - destruct r as [d | msg]; cbn.
    + set (u := setErr (setPrData s (Some d)) None).
      assert (Hu : (0 <= selected u)%Z) by exact H0.
      destruct (clampSelected_spec u Hu) as (Cf & _ & _ & C1 & C2).
      pose proof (Nat2Z.is_nonneg (List.length (filteredChecks u))) as Hn.
      fold (len (filteredChecks u)) in Hn.
      assert (Hsel : (0 <= selected (clampSelected u) <= selected s)%Z
                     /\ ((len (filteredChecks u) > 0)%Z ->
                         (selected (clampSelected u) < len (filteredChecks u))%Z)
                     /\ (len (filteredChecks u) = 0%Z ->
                         selected (clampSelected u) = 0%Z)).
      { change (selected u) with (selected s) in C1.
        destruct (Z.eq_dec (len (filteredChecks u)) 0) as [E | NE].
        - rewrite (C2 E). repeat split; lia.
        - rewrite (C1 ltac:(lia)). repeat split; lia. }
      destruct Hsel as ([S0 S1] & S2 & S3).
      split; [exact S0|].
      assert (Hac : activeCount (clampSelected u)
                    = match mode s with
                      | modeSelecting => len (prs s)
                      | modeViewing => len (filteredChecks u)
                      end).
      { unfold activeCount. rewrite Cf. unfold clampSelected.
        destruct (len (filteredChecks u) >? 0)%Z;
          [destruct (selected u >=? len (filteredChecks u))%Z|]; reflexivity. }
      rewrite Hac. unfold activeCount in H1.
      destruct (mode s).
      * destruct H1 as [H1 | H1]; [left; lia | right; lia].
      * destruct (Z.eq_dec (len (filteredChecks u)) 0) as [E | NE];
          [right; auto | left; apply S2; lia].
    + change (activeCount (setErr s (Some msg))) with (activeCount s). now split.
  - change (activeCount (setSize s w h)) with (activeCount s). now split.
  - now split.
Qed.

Lemma step_selectionInvariant (s : SessionState) (e : Event) :
  selectionInvariant s -> selectionInvariant (fst (step s e)).
Proof.
  intros H. pose proof (transition_selectionInvariant s e H) as Ht.
  destruct (step_cases s e) as [E | [E _]]; rewrite E; [exact Ht|].
  unfold selectionInvariant in *.
  destruct (adjustScroll_fields (fst (transition s e))) as (Es & _).
  now rewrite Es, activeCount_adjustScroll.
Qed.

(** The selection index invariant of section 3 holds in every session
    the engine can be in. *)
Lemma reachable_selectionInvariant (s : SessionState) :
  reachable s -> selectionInvariant s.
Proof.
  induction 1 as [r p i | i | s e _ IH].
  - split; [cbn; lia | now right].
  - split; [cbn; lia | now right].
  - now apply step_selectionInvariant.
Qed.

Lemma reachable_run (s : SessionState) (es : list Event) :
  reachable s -> reachable (run s es).
Proof.
  revert s. induction es as [| e es IH]; intros s H; [exact H|].
  apply IH. now constructor.
Qed.

Lemma Update_selected_nonneg (m : Ui.model) (msg : Ui.Msg) (r : Ui.Result) :
  (0 <= Ui.selected m)%Z -> Ui.Update m msg = Some r ->
  (0 <= Ui.selected (Ui.next r))%Z.
Proof.
  intros H0 Hup.
  assert (Hu : (0 <= Ui.selected (Ui.moveUp m))%Z).
  { unfold Ui.moveUp. destruct (Z.gtb_spec (Ui.selected m) 0); cbn; lia. }
  assert (Hd : (0 <= Ui.selected (Ui.moveDown m))%Z).
  { unfold Ui.moveDown. destruct (Ui.mode m).
    - destruct ((len (Ui.prs m) >? 0)%Z && (Ui.selected m <? len (Ui.prs m) - 1)%Z);
        cbn; lia.
    - destruct (Ui.prData m) as [d |]; [|lia].
      destruct (Ui.selected m <? len (Checks d) - 1)%Z; cbn; lia. }
  destruct msg as [k | l oe | od oe | | w h |]; cbn in Hup.
  - destruct k; try (injection Hup as <-; assumption).
    + destruct (Ui.mode m).
      * destruct (len (Ui.prs m) >? 0)%Z; [|injection Hup as <-; assumption].
        destruct (Ui.index (Ui.prs m) (Ui.selected m)); [|discriminate].
        injection Hup as <-. cbn. lia.
      * destruct (Ui.prData m) as [d |]; [|injection Hup as <-; assumption].
        destruct (len (Checks d) >? 0)%Z; [|injection Hup as <-; assumption].
        destruct (Ui.index (Checks d) (Ui.selected m)) as [c |]; [|discriminate].
        destruct (negb (DetailsURL c =? "")); injection Hup as <-; assumption.
    + destruct (runes =? "q"); [injection Hup as <-; assumption|].
      destruct (runes =? "r").
      { destruct (Ui.mode m); injection Hup as <-; assumption. }
      destruct (runes =? "k"); [injection Hup as <-; assumption|].
      destruct (runes =? "j"); injection Hup as <-; assumption.
  - destruct oe; injection Hup as <-; cbn; lia.
  - destruct oe; [injection Hup as <-; assumption|].
    destruct od as [d |]; [|discriminate].
    destruct (Z.gtb_spec (len (Checks d)) 0).
    + destruct (Ui.selected _ >=? len (Checks d))%Z; injection Hup as <-; cbn; lia.
    + injection Hup as <-. cbn. lia.
  - injection Hup as <-. assumption.
  - injection Hup as <-. assumption.
  - injection Hup as <-. assumption.
Qed.

Lemma ui_reachable_nonneg (m : Ui.model) :
  Nav.reachable m -> (0 <= Ui.selected m)%Z.
Proof.
  induction 1 as [r p i | i | m msg r _ IH Hup].
  - cbn. lia.
  - cbn. lia.
  - eapply Update_selected_nonneg; eassumption.
Qed.

Lemma ui_reachable_updates (msgs : list Ui.Msg) :
  forall m m', Nav.reachable m -> Nav.updates m msgs = Some m' -> Nav.reachable m'.
Proof.
  induction msgs as [| msg rest IH]; intros m m' H E; cbn in E.
  - injection E as <-. exact H.
  - destruct (Ui.Update m msg) as [r |] eqn:U; [|discriminate].
    eapply IH; [|exact E]. econstructor; eassumption.
Qed.

(** C5. In every session the engine can be in, a successful fetch-data
    result replaces the PRData, clears the error and clamps the selection
    index into [0, count-1] of the newly filtered check list, 0 when that
    list is empty; a failed one sets the error and leaves the PRData as it
    was.  The revision of ui.go at hand, which has no filter, does the
    same against the whole check list. *)
Theorem fetch_data_result (s : SessionState) (m : Ui.model) :
  reachable s -> Nav.reachable m ->
  (forall d,
     let s' := fst (step s (FetchDataResult (inl d))) in
     let n := len (filteredChecks s') in
     prData s' = Some d /\ err s' = None
     /\ filteredChecks s'
        = (if hideSkipped s then dropSkipped (Checks d) else Checks d)
     /\ ((n > 0)%Z -> selected s' = Z.min (selected s) (n - 1)
                      /\ (0 <= selected s' <= n - 1)%Z)
     /\ (n = 0%Z -> selected s' = 0%Z))
  /\ (forall msg,
        let s' := fst (step s (FetchDataResult (inr msg))) in
        err s' = Some msg /\ prData s' = prData s)
  /\ (forall d, exists m',
        Ui.Update m (Ui.prDataMsg (Some d) None) = Ui.ret m' Ui.CmdNil
        /\ Ui.prData m' = Some d /\ Ui.err m' = None
        /\ ((len (Checks d) > 0)%Z ->
            Ui.selected m' = Z.min (Ui.selected m) (len (Checks d) - 1))
        /\ (len (Checks d) = 0%Z -> Ui.selected m' = 0%Z))
  /\ (forall d msg, exists m',
        Ui.Update m (Ui.prDataMsg d (Some msg)) = Ui.ret m' Ui.CmdNil
        /\ Ui.err m' = Some msg /\ Ui.prData m' = Ui.prData m).
Proof.
  intros Rs Rm.
  pose proof (proj1 (reachable_selectionInvariant s Rs)) as Hs.
  pose proof (ui_reachable_nonneg m Rm) as Hm.
  split; [|split; [|split]].
  - intros d. cbv zeta.
    set (t := fst (transition s (FetchDataResult (inl d)))).
    set (u := setErr (setPrData s (Some d)) None).
    assert (Et : t = clampSelected u) by reflexivity.
    assert (Hu : (0 <= selected u)%Z) by exact Hs.
    destruct (clampSelected_spec u Hu) as (Cf & Cp & Ce & C1 & C2).
    rewrite <- Et in Cf, Cp, Ce, C1, C2.
    assert (Hf : filteredChecks t
                 = (if hideSkipped s then dropSkipped (Checks d) else Checks d))
      by (rewrite Cf; reflexivity).
    assert (Hgoal : prData t = Some d /\ err t = None
              /\ filteredChecks t
                 = (if hideSkipped s then dropSkipped (Checks d) else Checks d)
              /\ ((len (filteredChecks t) > 0)%Z ->
                  selected t = Z.min (selected s) (len (filteredChecks t) - 1)
                  /\ (0 <= selected t <= len (filteredChecks t) - 1)%Z)
              /\ (len (filteredChecks t) = 0%Z -> selected t = 0%Z)).
    { rewrite Cf in *. split; [rewrite Cp; reflexivity|].
      split; [rewrite Ce; reflexivity|]. split; [reflexivity|].
      split.
      - intros Hn. specialize (C1 Hn). change (selected u) with (selected s) in C1.
        split; [exact C1 | lia].
      - exact C2. }
    destruct (adjustScroll_fields t) as (Es & _ & Ef & _ & Ep & Ee & _).
    destruct (step_cases s (FetchDataResult (inl d))) as [E | [E _]];
      fold t in E; rewrite E; [exact Hgoal|].
    rewrite Ep, Ee, Ef, Es. exact Hgoal.
  - intros msg. cbv zeta.
    set (t := fst (transition s (FetchDataResult (inr msg)))).
    assert (Ht : err t = Some msg /\ prData t = prData s) by now split.
    destruct (adjustScroll_fields t) as (_ & _ & _ & _ & Ep & Ee & _).
    destruct (step_cases s (FetchDataResult (inr msg))) as [E | [E _]];
      fold t in E; rewrite E; [exact Ht|]. now rewrite Ep, Ee.
  - intros d. cbn.
    destruct (Z.gtb_spec (len (Checks d)) 0).
    + destruct (Z.geb_spec (Ui.selected m) (len (Checks d)));
        eexists; (split; [reflexivity|]); cbn; repeat split; lia.
    + eexists; split; [reflexivity|]; cbn; repeat split; try lia.
  - intros d msg. eexists. split; [reflexivity|]. now split.
Qed.

(** The rows of the session engine are those [View] counts. *)
Lemma visibleRows_maxRows (s : SessionState) :
  visibleRows s = Ui.maxRows (erase s).
Proof. reflexivity. Qed.

Lemma erase_adjustScroll (s : SessionState) : erase (adjustScroll s) = erase s.
Proof.
  unfold adjustScroll.
  destruct (selected s >=? scrollOff s + visibleRows s)%Z;
    [|destruct (selected s <? scrollOff s)%Z]; reflexivity.
Qed.

Lemma erase_step (s : SessionState) (e : Event) :
  erase (fst (step s e)) = erase (fst (transition s e)).
Proof.
  destruct (step_cases s e) as [E | [E _]]; rewrite E; [reflexivity|].
  apply erase_adjustScroll.
Qed.

Lemma index_Some_len {A} (l : list A) (i : Z) (x : A) :
  Ui.index l i = Some x -> (0 <= i < len l)%Z.
Proof.
  unfold Ui.index, len. destruct (Z.ltb_spec i 0) as [Hi | Hi]; [discriminate|].
  intros Hx. assert (Hn : nth_error l (Z.to_nat i) <> None) by congruence.
  apply nth_error_Some in Hn. lia.
Qed.

(** With the filter off, the session engine does on the fields of the
    revision of ui.go with the PR picker what its [Update] does, whenever
    that [Update] does not panic and the index is not negative. *)
Lemma session_extends_ui (s : SessionState) (msg : Ui.Msg) (e : Event)
  (r : Ui.Result) :
  hideSkipped s = false -> (0 <= selected s)%Z ->
  eventOf msg = Some e ->
  Ui.Update (erase s) msg = Some r ->
  Ui.next r = erase (fst (step s e)).
Proof.
  intros Hf Hs Hev Hup. rewrite erase_step.
  assert (Hfc : filteredChecks s
                = match prData s with Some d => Checks d | None => [] end).
  { unfold filteredChecks. rewrite Hf. reflexivity. }
  assert (Hlen : forall A (l : list A), (0 <= len l)%Z)
    by (intros; unfold len; lia).
  assert (Hup_move : Ui.moveUp (erase s) = erase (fst (transition s MoveUp))).
  { cbn. unfold Ui.moveUp. cbn.
    destruct (selected s >? 0)%Z; reflexivity. }
  assert (Hdown_move : Ui.moveDown (erase s) = erase (fst (transition s MoveDown))).
  { cbn. unfold Ui.moveDown, activeCount. rewrite Hfc. cbn.
    destruct (mode s); cbn.
    - pose proof (Hlen _ (prs s)).
      destruct (Z.gtb_spec (len (prs s)) 0), (Z.ltb_spec (selected s) (len (prs s) - 1));
        cbn; reflexivity || lia.
    - destruct (prData s) as [d |]; cbn.
      + destruct (selected s <? len (Checks d) - 1)%Z; reflexivity.
      + change (len (@nil Check)) with 0%Z.
        destruct (Z.ltb_spec (selected s) (-1)); [lia | reflexivity]. }
  destruct msg as [k | l oe | od oe | | w h |]; cbn in Hev.
  - destruct k; try discriminate.
    + injection Hev as <-. injection Hup as <-. reflexivity.
    + injection Hev as <-. injection Hup as <-. exact Hup_move.
    + injection Hev as <-. injection Hup as <-. exact Hdown_move.
    + injection Hev as <-.
      cbn in Hup |- *. destruct (mode s) eqn:Em; cbn in Hup |- *.
      * destruct (Z.gtb_spec (len (prs s)) 0).
        -- destruct (Ui.index (prs s) (selected s)) as [pr |]; [|discriminate].
           injection Hup as <-. cbn. reflexivity.
        -- destruct (Ui.index (prs s) (selected s)) as [pr |] eqn:Ei.
           ++ apply index_Some_len in Ei. lia.
           ++ injection Hup as <-. cbn; rewrite ?Em; reflexivity.
      * rewrite Hfc. destruct (prData s) as [d |] eqn:Ed; cbn in Hup |- *.
        -- destruct (Z.gtb_spec (len (Checks d)) 0).
           ++ destruct (Ui.index (Checks d) (selected s)) as [c |]; [|discriminate].
              destruct (negb (DetailsURL c =? "")); injection Hup as <-;
                cbn; rewrite ?Em, ?Ed; reflexivity.
           ++ injection Hup as <-.
              destruct (Ui.index (Checks d) (selected s)) as [c |] eqn:Ei.
              ** apply index_Some_len in Ei. lia.
              ** cbn; rewrite ?Em, ?Ed; reflexivity.
        -- injection Hup as <-.
           assert (Ei : Ui.index (@nil Check) (selected s) = None).
           { unfold Ui.index. destruct (selected s <? 0)%Z; [reflexivity|].
             now destruct (Z.to_nat (selected s)). }
           rewrite Ei. cbn; rewrite ?Em, ?Ed; reflexivity.
    + cbn in Hup.
      destruct (String.eqb_spec runes "q") as [-> | Nq].
      { injection Hev as <-. injection Hup as <-. reflexivity. }
      destruct (String.eqb_spec runes "r") as [-> | Nr].
      { injection Hev as <-. cbn. destruct (mode s) eqn:Em;
          injection Hup as <-; cbn; rewrite ?Em; reflexivity. }
      destruct (String.eqb_spec runes "k") as [-> | Nk].
      { injection Hev as <-. injection Hup as <-. exact Hup_move. }
      destruct (String.eqb_spec runes "j") as [-> | Nj]; [|discriminate].
      injection Hev as <-. injection Hup as <-. exact Hdown_move.
  - destruct oe; injection Hev as <-; injection Hup as <-; reflexivity.
  - destruct oe as [msg |].
    + destruct od; injection Hev as <-; injection Hup as <-; reflexivity.
    + destruct od as [d |]; [|discriminate]. injection Hev as <-.
      assert (Hfd : filteredChecks (setErr (setPrData s (Some d)) None) = Checks d).
      { unfold filteredChecks. cbn. now rewrite Hf. }
      cbn in Hup |- *. unfold clampSelected. rewrite !Hfd.
      change (selected (setErr (setPrData s (Some d)) None)) with (selected s).
      destruct (len (Checks d) >? 0)%Z;
        [destruct (selected s >=? len (Checks d))%Z|];
        injection Hup as <-; reflexivity.
  - injection Hev as <-. injection Hup as <-. cbn.
    destruct (mode s) eqn:Em; cbn; rewrite ?Em; reflexivity.
  - injection Hev as <-. injection Hup as <-. reflexivity.
  - discriminate.
Qed.

End ScrollAndFetch.

Lemma truncSeconds_sign (d : Z) : (d < 0)%Z -> (truncSeconds d <= 0)%Z.
Proof.
  intros H. unfold truncSeconds.
  pose proof (Z.quot_opp_l (- d) 1000000000 ltac:(lia)) as E.
  rewrite Z.opp_involutive in E. rewrite E.
  pose proof (Z.quot_pos (- d) 1000000000 ltac:(lia) ltac:(lia)). lia.
Qed.

Example parseDuration_tests :
  let p := Gh.parseDuration parseTable clock truncSeconds in
  p "2024-01-01T10:00:00Z" "2024-01-01T10:02:35Z"
  = ("2m35s", (63839700000 * 1000000000)%Z, true)
  /\ p "2024-01-01T10:00:00Z" "2024-01-01T10:00:45Z"
     = ("45s", (63839700000 * 1000000000)%Z, true)
  /\ p "" "2024-01-01T10:00:00Z" = ("-", Gh.zeroTime, false)
  /\ p "not-a-date" "2024-01-01T10:00:00Z" = ("-", Gh.zeroTime, false)
  /\ p "2024-01-01T10:00:00Z" "" = ("5m00s", (63839700000 * 1000000000)%Z, false).
Proof. vm_compute. repeat split. Qed.

Example formatDuration_tests :
  map Gh.formatDuration [0; 5; 59; 60; 90; 155; 3600]%Z
  = ["0s"; "5s"; "59s"; "1m00s"; "1m30s"; "2m35s"; "60m00s"].
Proof. vm_compute. reflexivity. Qed.

(** ** The theorems at concrete inputs *)

Lemma statusContext_forced_witness :
  (Gh.Completed (convert jenkinsItem) = true
   /\ Gh.Duration (convert jenkinsItem) = "???")
  /\ (Gh.Duration (convert buildItem) = "2m35s"
      /\ Gh.Completed (convert buildItem) = true)
  /\ (Gh.Duration (convert pendingItem) = "5m00s"
      /\ Gh.Completed (convert pendingItem) = false).
Proof.
  pose proof (statusContext_forced asciiToUpper asciiTrimSpace parseTable clock
                truncSeconds) as T.
  split; [|split].
  - apply (proj1 (T jenkinsItem)).
    + reflexivity.
    + right. reflexivity.
    + discriminate.
  - apply (proj1 (proj2 (T buildItem))).
    intros [H | H]; discriminate H.
  - apply (proj2 (proj2 (T pendingItem))).
    + left. reflexivity.
    + right. reflexivity.
Defined.

Lemma parseDuration_cases_witness :
  Gh.parseDuration parseTable clock truncSeconds "not-a-date" "2024-01-01T10:00:00Z"
  = ("-", Gh.zeroTime, false)
  /\ Gh.parseDuration parseTable clock truncSeconds
       "2024-01-01T10:02:35Z" "2024-01-01T10:00:00Z"
     = ("0s", (63839700155 * 1000000000)%Z, true)
  /\ Gh.parseDuration parseTable clock truncSeconds
       "2024-01-01T10:00:00Z" "yesterday"
     = ("5m00s", (63839700000 * 1000000000)%Z, false).
Proof.
  pose proof (parseDuration_cases parseTable clock truncSeconds truncSeconds_sign)
    as T.
  split; [|split].
  - apply (proj1 (T "not-a-date" "2024-01-01T10:00:00Z")). right. reflexivity.
  - destruct (proj2 (T "2024-01-01T10:02:35Z" "2024-01-01T10:00:00Z")
                (63839700155 * 1000000000)%Z ltac:(discriminate) eq_refl)
      as (A & _).
    destruct (A (63839700000 * 1000000000)%Z ltac:(discriminate) eq_refl)
      as (E & Z0).
    rewrite E, (Z0 ltac:(reflexivity)). reflexivity.
  - destruct (proj2 (T "2024-01-01T10:00:00Z" "yesterday")
                (63839700000 * 1000000000)%Z ltac:(discriminate) eq_refl)
      as (_ & _ & A & _).
    exact (A ltac:(discriminate) eq_refl).
Defined.

Lemma selection_stays_in_range_witness :
  (exists m', Nav.updates modelThree keys = Some m'
              /\ Nav.sameButSelected modelThree m'
              /\ ((Nav.activeLen modelThree > 0)%Z ->
                  (0 <= Ui.selected m' <= Nav.activeLen modelThree - 1)%Z)
              /\ (Nav.activeLen modelThree = 0%Z -> Ui.selected m' = 0%Z))
  /\ (forall msg, Nav.isUp msg = true ->
                  Ui.Update modelThree msg = Ui.ret modelThree Ui.CmdNil)
  /\ (forall m1 msg, Nav.isDown msg = true -> (Nav.activeLen m1 > 0)%Z ->
                     Ui.selected m1 = (Nav.activeLen m1 - 1)%Z ->
                     Ui.Update m1 msg = Ui.ret m1 Ui.CmdNil).
Proof.
  apply (selection_stays_in_range modelThree keys); reflexivity.
Defined.

Example selection_run :
  Nav.updates modelThree keys = Some modelThree
  /\ Nav.updates modelThree (firstn 4 keys) = Some (Ui.setSelected modelThree 2).
Proof. split; reflexivity. Qed.

Lemma truncate_bytes_witness :
  Ui.truncate "hello" 0 = "hello"
  /\ Ui.truncate "hello" 10 = "hello"
  /\ Ui.truncate "hello" 5 = "hello"
  /\ Ui.truncate "hello world" 5 = "hello"
  /\ Ui.truncate (String "195" (String "169" "")) 1 = String "195" "".
Proof.
  split; [|split; [|split; [|split]]].
  - apply (proj1 (truncate_bytes "hello" 0)). left. lia.
  - apply (proj1 (truncate_bytes "hello" 10)). right. cbv. discriminate.
  - apply (proj1 (truncate_bytes "hello" 5)). right. cbv. discriminate.
  - apply (proj2 (truncate_bytes "hello world" 5)). cbv. split; reflexivity.
  - apply (proj2 (truncate_bytes (String "195" (String "169" "")) 1)).
    cbv. split; reflexivity.
Defined.

Lemma filter_flag_and_toggle_witness :
  let s := fst (Session.step sessionAtFive (Session.FetchDataResult (inl mixed))) in
  Session.hideSkipped (Session.newModel "o/r" "1" 5) = true
  /\ Session.hideSkipped s = true
  /\ len (Session.filteredChecks s) = 2%Z
  /\ map Gh.Name (Session.filteredChecks s) = ["lint"; "build"]
  /\ Session.hideSkipped (fst (Session.step s Session.ToggleFilter)) = false
  /\ Session.selected (fst (Session.step s Session.ToggleFilter)) = 0%Z
  /\ Session.scrollOff (fst (Session.step s Session.ToggleFilter)) = 0%Z
  /\ Session.filteredChecks (fst (Session.step s Session.ToggleFilter))
     = Gh.Checks mixed.
Proof.
  cbv zeta.
  set (s := fst (Session.step sessionAtFive (Session.FetchDataResult (inl mixed)))).
  destruct filter_flag_and_toggle as (N & _ & Off & On & Tg).
  split; [apply N|]. split; [reflexivity|].
  destruct (On s mixed eq_refl eq_refl) as (_ & _ & Ef & El).
  split; [rewrite El; reflexivity|].
  split; [rewrite Ef; reflexivity|].
  destruct (Tg s eq_refl) as (Th & Ts & To).
  split; [exact Th|]. split; [exact Ts|]. split; [exact To|].
  apply (Off (fst (Session.step s Session.ToggleFilter)) mixed); reflexivity.
Defined.

Lemma sessionAtFive_reachable : SessionSpec.reachable sessionAtFive.
Proof. repeat apply reachable_run. constructor. Qed.

Lemma modelAtFive_reachable : Nav.reachable modelAtFive.
Proof.
  apply (ui_reachable_updates toFive (Ui.newModel "o/r" "1" 5));
    [constructor | reflexivity].
Qed.

Lemma fetch_data_result_witness :
  let s' := fst (Session.step sessionAtFive (Session.FetchDataResult (inl mixed))) in
  let f := fst (Session.step s' (Session.FetchDataResult (inr "gh CLI error"))) in
  Session.selected sessionAtFive = 5%Z
  /\ Session.prData s' = Some mixed /\ Session.err s' = None
  /\ Session.selected s' = 1%Z
  /\ Session.err f = Some "gh CLI error" /\ Session.prData f = Some mixed
  /\ (exists m', Ui.Update modelAtFive (Ui.prDataMsg (Some mixed) None)
                 = Ui.ret m' Ui.CmdNil
                 /\ Ui.selected m' = 2%Z).
Proof.
  cbv zeta.
  set (s' := fst (Session.step sessionAtFive (Session.FetchDataResult (inl mixed)))).
  split; [reflexivity|].
  destruct (fetch_data_result sessionAtFive modelAtFive sessionAtFive_reachable
              modelAtFive_reachable) as (A & _ & C & _).
  destruct (A mixed) as (Hd & He & _ & Hsel & _). fold s' in Hd, He, Hsel.
  split; [exact Hd|]. split; [exact He|].
  split; [exact (proj1 (Hsel ltac:(reflexivity)))|].
  destruct (fetch_data_result s' modelAtFive
              (SessionSpec.reach_session_step _ _ sessionAtFive_reachable)
              modelAtFive_reachable) as (_ & B & _).
  destruct (B "gh CLI error") as (Be & Bp).
  split; [exact Be|]. split; [rewrite Bp; exact Hd|].
  destruct (C mixed) as (m' & U & _ & _ & Hs & _).
  exists m'. split; [exact U|]. exact (Hs ltac:(reflexivity)).
Defined.



(** * Properties of more of the program *)

(** ** main.go: the URL of a pull request *)

Section TextFacts.
Import GoText.
Variable c : ascii.

Lemma append_assoc (a b d : string) : (a ++ b) ++ d = a ++ (b ++ d).
Proof. induction a as [| x r IH]; cbn; [reflexivity | now rewrite IH]. Qed.

Lemma Split_nonempty (s : string) : Split s c <> [].
Proof.
  destruct s as [| a r]; cbn; [discriminate|].
  destruct (Ascii.eqb a c); [discriminate|].
  destruct (Split r c); discriminate.
Qed.

Lemma Split_noByte_one (s : string) : noByte c s = true -> Split s c = [s].
Proof.
  induction s as [| a r IH]; cbn; [reflexivity|].
  intros H. apply andb_prop in H. destruct H as [Ha Hr].
  apply negb_true_iff in Ha. rewrite Ha, (IH Hr). reflexivity.
Qed.

Lemma Split_app_sep (s t : string) :
  noByte c s = true -> Split (s ++ String c t) c = s :: Split t c.
Proof.
  induction s as [| a r IH]; cbn.
  - intros _. now rewrite Ascii.eqb_refl.
  - intros H. apply andb_prop in H. destruct H as [Ha Hr].
    apply negb_true_iff in Ha. rewrite Ha, (IH Hr). reflexivity.
Qed.

Lemma Join_cons (e : string) (rest : list string) :
  rest <> [] -> Join (e :: rest) (String c "") = e ++ String c (Join rest (String c "")).
Proof. destruct rest; [congruence | reflexivity]. Qed.

Lemma Split_Join (segs : list string) :
  segs <> [] -> Forall (fun s => noByte c s = true) segs ->
  Split (Join segs (String c "")) c = segs.
Proof.
  induction segs as [| e rest IH]; [congruence|].
  intros _ H. inversion H as [| ? ? He Hrest]; subst.
  destruct rest as [| e' rest'].
  - cbn. now apply Split_noByte_one.
  - rewrite Join_cons by discriminate.
    rewrite (Split_app_sep _ _ He), IH; [reflexivity | discriminate | assumption].
Qed.

Lemma Join_Split (s : string) : Join (Split s c) (String c "") = s.
Proof.
  induction s as [| a r IH]; cbn; [reflexivity|].
  destruct (Ascii.eqb_spec a c) as [-> | Na].
  - rewrite Join_cons by apply Split_nonempty. cbn. now rewrite IH.
  - pose proof (Split_nonempty r) as Hne.
    destruct (Split r c) as [| p ps]; [congruence|].
    destruct ps as [| p' ps'].
    + cbn in IH |- *. now rewrite IH.
    + rewrite (Join_cons (String a p)) by discriminate.
      rewrite (Join_cons p) in IH by discriminate.
      cbn [append]. now rewrite IH.
Qed.

Lemma Split_noByte (s : string) :
  Forall (fun p => noByte c p = true) (Split s c).
Proof.
  induction s as [| a r IH]; cbn.
  - repeat constructor.
  - destruct (Ascii.eqb a c) eqn:Ea.
    + constructor; [reflexivity | assumption].
    + destruct (Split r c) as [| p ps]; [repeat constructor; cbn; now rewrite Ea|].
      inversion IH; subst. constructor; [cbn; rewrite Ea; assumption | assumption].
Qed.

Lemma TrimRight_app_sep (s : string) :
  TrimRight (s ++ String c "") c = TrimRight s c.
Proof.
  induction s as [| a r IH]; cbn.
  - now rewrite Ascii.eqb_refl.
  - now rewrite IH.
Qed.

Lemma TrimRight_noByte (s : string) : noByte c s = true -> TrimRight s c = s.
Proof.
  induction s as [| a r IH]; cbn; [reflexivity|].
  intros H. apply andb_prop in H. destruct H as [Ha Hr].
  apply negb_true_iff in Ha. rewrite (IH Hr), Ha. now destruct r.
Qed.

Lemma TrimRight_app (a b : string) :
  TrimRight b c <> "" -> TrimRight (a ++ b) c = a ++ TrimRight b c.
Proof.
  intros Hb. induction a as [| x r IH]; cbn; [reflexivity|].
  rewrite IH. destruct (r ++ TrimRight b c) eqn:E; [|reflexivity].
  exfalso. apply Hb. destruct r; cbn in E; [assumption | discriminate].
Qed.

Lemma TrimRight_Join (segs : list string) :
  Forall (fun s => noByte c s = true) segs -> last segs "" <> "" ->
  TrimRight (Join segs (String c "")) c = Join segs (String c "").
Proof.
  induction segs as [| e rest IH]; [reflexivity|].
  intros H Hl. inversion H as [| ? ? He Hrest]; subst.
  destruct rest as [| e' rest'].
  - cbn. now apply TrimRight_noByte.
  - rewrite Join_cons by discriminate.
    change (String c (Join (e' :: rest') (String c "")))
      with (String c "" ++ Join (e' :: rest') (String c "")).
    rewrite <- append_assoc.
    assert (IH' : TrimRight (Join (e' :: rest') (String c "")) c
                  = Join (e' :: rest') (String c "")) by (apply IH; assumption).
    assert (Hne : Join (e' :: rest') (String c "") <> "").
    { destruct rest' as [| e'' r''].
      - cbn in Hl |- *. exact Hl.
      - rewrite Join_cons by discriminate. destruct e'; discriminate. }
    rewrite TrimRight_app, IH'; [reflexivity | now rewrite IH'].
Qed.

End TextFacts.

Section ParsePRURL.
Import GoText Main.

(** [parsePRURL] on segments: what it makes of the URL whose pieces
    between the slashes are [segs]. *)
Lemma parsePRURL_segments (p0 p1 host owner name kind number : string)
  (rest : list string) :
  Forall slashFree (p0 :: p1 :: host :: owner :: name :: kind :: number :: rest) ->
  last (number :: rest) "" <> "" ->
  parsePRURL (Join (p0 :: p1 :: host :: owner :: name :: kind :: number :: rest) "/")
  = if negb (host =? "github.com") || negb (kind =? "pull") then ("", "", false)
    else if number =? "" then ("", "", false)
    else (owner ++ "/" ++ name, number, true).
Proof.
  intros Hf Hl. unfold parsePRURL.
  set (segs := p0 :: p1 :: host :: owner :: name :: kind :: number :: rest) in *.
  assert (Hlast : last segs "" <> "") by exact Hl.
  rewrite (TrimRight_Join "/" segs Hf Hlast).
  rewrite (Split_Join "/" segs ltac:(discriminate) Hf).
  assert (Hlen : (len segs <? 7)%Z = false).
  { apply Z.ltb_ge. unfold len, segs. cbn [List.length]. lia. }
  rewrite Hlen. reflexivity.
Qed.

(** X1. A URL made of two leading segments, "github.com", owner, name,
    "pull", a non-empty number and any further segments, none holding a
    slash and the last one not empty, is accepted: the repository is
    owner/name and the number is the seventh segment.  The scheme and
    what follows the number are not looked at. *)
Theorem parsePRURL_accepts (p0 p1 owner name number : string)
  (rest : list string) :
  Forall slashFree (p0 :: p1 :: owner :: name :: number :: rest) ->
  number <> "" -> last (number :: rest) "" <> "" ->
  parsePRURL
    (Join (p0 :: p1 :: "github.com" :: owner :: name :: "pull" :: number :: rest) "/")
  = (owner ++ "/" ++ name, number, true).
Proof.
  intros Hf Hn Hl.
  rewrite parsePRURL_segments.
  - apply String.eqb_neq in Hn. now rewrite Hn.
  - inversion Hf as [| ? ? H0 Hf1]; subst. inversion Hf1 as [| ? ? H1 Hf2]; subst.
    inversion Hf2 as [| ? ? H2 Hf3]; subst. inversion Hf3 as [| ? ? H3 Hf4]; subst.
    repeat (constructor; try assumption); reflexivity.
  - exact Hl.
Qed.

(** X2. Slashes at the end of the argument make no difference. *)
Theorem parsePRURL_trailing_slash (url : string) :
  parsePRURL (url ++ "/") = parsePRURL url.
Proof. unfold parsePRURL. now rewrite TrimRight_app_sep. Qed.

Lemma nth_split7 (parts : list string) :
  (7 <= len parts)%Z ->
  exists rest,
    parts = part parts 0 :: part parts 1 :: part parts 2 :: part parts 3
            :: part parts 4 :: part parts 5 :: part parts 6 :: rest.
Proof.
  unfold len, part. intros H.
  do 7 (destruct parts as [| ? parts]; [cbn in H; lia|]).
  exists parts. reflexivity.
Qed.

(** X3. When [parsePRURL] accepts, the argument without its trailing
    slashes is p0/p1/github.com/owner/name/pull/number followed by any
    further segments; the repository returned is owner/name; owner, name
    and number hold no slash and the number is not empty.  When it
    rejects, both strings returned are empty. *)
Theorem parsePRURL_sound (url repo number : string) (ok : bool) :
  parsePRURL url = (repo, number, ok) ->
  (ok = true ->
   exists p0 p1 owner name rest,
     TrimRight url "/"
     = Join (p0 :: p1 :: "github.com" :: owner :: name :: "pull" :: number :: rest) "/"
     /\ repo = owner ++ "/" ++ name
     /\ slashFree owner /\ slashFree name /\ slashFree number
     /\ number <> "")
  /\ (ok = false -> repo = "" /\ number = "").
Proof.
  unfold parsePRURL.
  set (parts := Split (TrimRight url "/") "/").
  destruct (Z.ltb_spec (len parts) 7) as [Hlt | Hge].
  { intros [= <- <- <-]. split; [discriminate | auto]. }
  destruct (String.eqb_spec (part parts 2) "github.com") as [Eh | Nh];
    [|intros [= <- <- <-]; split; [discriminate | auto]].
  destruct (String.eqb_spec (part parts 5) "pull") as [Ek | Nk];
    [|intros [= <- <- <-]; split; [discriminate | auto]].
  cbn [negb orb].
  destruct (String.eqb_spec (part parts 6) "") as [En | Nn];
    intros [= <- <- <-]; (split; [|discriminate || auto]).
  { discriminate. }
  intros _.
  destruct (nth_split7 parts Hge) as (rest & Eparts).
  pose proof (Split_noByte "/" (TrimRight url "/")) as Hfree. fold parts in Hfree.
  pose proof (Join_Split "/" (TrimRight url "/")) as Hjoin. fold parts in Hjoin.
  exists (part parts 0), (part parts 1), (part parts 3), (part parts 4), rest.
  rewrite Eparts in Hfree.
  inversion Hfree as [| ? ? _ F1]; subst. inversion F1 as [| ? ? _ F2]; subst.
  inversion F2 as [| ? ? _ F3]; subst. inversion F3 as [| ? ? H3 F4]; subst.
  inversion F4 as [| ? ? H4 F5]; subst. inversion F5 as [| ? ? _ F6]; subst.
  inversion F6 as [| ? ? H6 _]; subst.
  split; [|now repeat split].
  rewrite <- Hjoin at 1. rewrite Eparts at 1. now rewrite Eh, Ek.
Qed.

Example parsePRURL_tests :
  parsePRURL "https://github.com/owner/repo/pull/123" = ("owner/repo", "123", true)
  /\ parsePRURL "https://github.com/owner/repo/pull/123/" = ("owner/repo", "123", true)
  /\ parsePRURL "https://gitlab.com/o/r/pull/1" = ("", "", false)
  /\ parsePRURL "https://github.com/owner/repo" = ("", "", false)
  /\ parsePRURL "https://github.com/o/r/issues/1" = ("", "", false)
  /\ parsePRURL "" = ("", "", false)
  /\ parsePRURL "https://github.com/o/r/pull/7/files" = ("o/r", "7", true)
  /\ parsePRURL "https://github.com/o/r/pull//files" = ("", "", false).
Proof. vm_compute. repeat split. Qed.

End ParsePRURL.

Section MainFacts.
Import GoText Main.

Lemma prURL_Join (owner name number : string) :
  prURL owner name number
  = Join ["https:"; ""; "github.com"; owner; name; "pull"; number] "/".
Proof.
  unfold prURL. cbn. repeat f_equal.
Qed.

(** X4. Given the URL of a pull request, [main] starts the same model as
    when it is given the repository and the number as two arguments; with
    more than two arguments, or without the gh tool, it exits with status
    1 whatever the arguments are. *)
Theorem main_url_or_pair (interval : Z) (owner name number : string) :
  slashFree owner -> slashFree name -> slashFree number -> number <> "" ->
  main interval [prURL owner name number] true
  = main interval [owner ++ "/" ++ name; number] true
  /\ main interval [prURL owner name number] true
     = Run (Ui.newModel (owner ++ "/" ++ name) number (seconds interval))
  /\ (forall args gh, (len args > 2)%Z \/ gh = false ->
                      main interval args gh = Exit 1).
Proof.
  intros Ho Hn Hp Hne.
  assert (E : parsePRURL (prURL owner name number)
              = (owner ++ "/" ++ name, number, true)).
  { rewrite prURL_Join, parsePRURL_segments.
    - apply String.eqb_neq in Hne. cbn [String.eqb Ascii.eqb Bool.eqb negb orb].
      now rewrite Hne.
    - repeat (constructor; try assumption); reflexivity.
    - assumption. }
  split; [|split].
  - unfold main. cbn [len List.length]. cbn [negb]. rewrite E. reflexivity.
  - unfold main. cbn [len List.length]. cbn [negb]. rewrite E. reflexivity.
  - intros args gh [H | ->]; unfold main.
    + destruct (Z.gtb_spec (len args) 2); [reflexivity | lia].
    + destruct (len args >? 2)%Z; reflexivity.
Qed.

End MainFacts.

(** ** The rendering of ui.go *)

Section RenderFacts.
Import GoText Gh GhMore Ui Render.

Variable Render : Style -> string -> string.
Variable nowText : string.
Variable Since : Time -> Z.
Variable wholeSeconds wholeMinutes wholeHours wholeDays : Z -> Z.
Variable parseRFC3339 : string -> option Time.
Variable runeCount : string -> Z.

Let View := View Render nowText Since wholeSeconds wholeMinutes wholeHours
                 wholeDays parseRFC3339 runeCount.
Let liveDuration := liveDuration Since wholeSeconds.
Let relativeTime :=
  relativeTime Since wholeMinutes wholeHours wholeDays parseRFC3339.

Lemma slen_append (a b : string) : slen (a ++ b) = (slen a + slen b)%Z.
Proof.
  unfold slen. induction a as [| x r IH]; cbn [append String.length].
  - lia.
  - rewrite !Nat2Z.inj_succ. lia.
Qed.

Lemma slen_spaces (n : Z) : slen (spaces n) = Z.max 0 n.
Proof.
  unfold slen, spaces.
  assert (H : forall k, String.length (string_of_list_ascii (repeat " "%char k)) = k).
  { induction k as [| k IH]; cbn; [reflexivity | now rewrite IH]. }
  rewrite H. lia.
Qed.

Lemma slen_nonneg (s : string) : (0 <= slen s)%Z.
Proof. unfold slen. lia. Qed.

Lemma truncate_length (s : string) (w : Z) :
  (0 < w <= slen s)%Z -> slen (truncate s w) = w.
Proof.
  intros [H0 Hs]. unfold truncate.
  destruct (Z.gtb_spec (slen s) w) as [Hgt | Hle]; cbn [andb].
  - destruct (Z.gtb_spec w 0); [|lia].
    destruct (substring_prefix (Z.to_nat w) s) as (rest & _ & L).
    { unfold slen in Hs. lia. }
    unfold slen. rewrite L. lia.
  - lia.
Qed.

(** X5. While the width is 0, and while an error is held, [View] shows
    the same text for any two models with the same mode, target, width and
    error: the data, the PR list, the selection, the height and the
    loading flag do not show.  With width 0 the text is "Loading...". *)
Theorem view_banner_precedence (m1 m2 : model) :
  sameBanner m1 m2 ->
  width m1 = 0%Z \/ err m1 <> None ->
  View m1 = View m2
  /\ (width m1 = 0%Z -> View m1 = "Loading...").
Proof.
  intros (Hm & Hr & Hp & Hw & He) Hor.
  assert (Hh : headerLine nowText m1 = headerLine nowText m2).
  { unfold headerLine. now rewrite Hr, Hp, Hw. }
  split.
  - unfold View, Render.View, viewSelecting.
    rewrite <- Hm, <- Hw, <- He, <- Hh.
    destruct (mode m1); destruct (width m1 =? 0)%Z eqn:E0; try reflexivity.
    + destruct (err m1); [reflexivity|].
      destruct Hor as [H | H]; [apply Z.eqb_neq in E0 | ]; congruence.
    + destruct (err m1); [reflexivity|].
      destruct Hor as [H | H]; [apply Z.eqb_neq in E0 | ]; congruence.
  - intros H0. unfold View, Render.View, viewSelecting.
    rewrite H0. now destruct (mode m1).
Qed.

(** X6. Without error, the picker shows the fetching text while the
    loading flag is set, whatever list it holds; and the checks view shows
    its fetching text while no data is held, whatever the selection and
    the height are. *)
Theorem view_fetching_precedence (m1 m2 : model) :
  sameBanner m1 m2 -> err m1 = None ->
  (mode m1 = modeSelecting -> loading m1 = true -> loading m2 = true ->
   View m1 = View m2)
  /\ (mode m1 = modeViewing -> prData m1 = None -> prData m2 = None ->
      View m1 = View m2).
Proof.
  intros (Hm & Hr & Hp & Hw & He) He1.
  assert (Hh : headerLine nowText m1 = headerLine nowText m2).
  { unfold headerLine. now rewrite Hr, Hp, Hw. }
  split.
  - intros Hs Hl1 Hl2. unfold View, Render.View, viewSelecting.
    rewrite <- Hm, <- Hw, <- He, Hs, He1, Hl1, Hl2. reflexivity.
  - intros Hv Hd1 Hd2. unfold View, Render.View.
    rewrite <- Hm, <- Hw, <- He, <- Hh, Hv, He1, Hd1, Hd2. reflexivity.
Qed.

(** X7. The duration of a table row: for a check that is not completed
    and has a start time it is [formatDuration] of the seconds elapsed,
    never less than 0; otherwise it is the stored text.  A check whose
    completion was forced in [fetchPRData] always shows "???". *)
Theorem liveDuration_formatDuration :
  (forall check,
     liveDuration check
     = if negb (Completed check) && negb (IsZero (StartedAt check))
       then formatDuration (Z.max 0 (wholeSeconds (Since (StartedAt check))))
       else Duration check)
  /\ (forall ToUpper TrimSpace parse now ws item,
        forceCompleted ToUpper TrimSpace item = true ->
        liveDuration (itemCheck ToUpper TrimSpace parse now ws item) = "???").
Proof.
  split.
  - intros check. unfold liveDuration, Render.liveDuration, formatDuration.
    destruct (negb (Completed check) && negb (IsZero (StartedAt check)));
      [|reflexivity].
    now rewrite clamp_max.
  - intros ToUpper TrimSpace parse now ws item F.
    destruct (itemCheck_forced ToUpper TrimSpace parse now ws item F) as [Hc Hd].
    unfold liveDuration, Render.liveDuration. rewrite Hc, Hd. reflexivity.
Qed.

(** X8. The name column of a table row holds a prefix of the name of at
    most [width - 24] bytes (no byte when the width is below 24), and the
    whole name when it fits. *)
Theorem nameColumn_bound (maxWidth : Z) (check : Check) :
  (slen (nameColumn maxWidth check) <= Z.max 0 (maxWidth - 24))%Z
  /\ (exists rest, Name check = nameColumn maxWidth check ++ rest)
  /\ ((slen (Name check) <= Z.max 0 (maxWidth - 24))%Z ->
      nameColumn maxWidth check = Name check).
Proof.
  unfold nameColumn.
  set (w := if (maxWidth - 12 - 12 <? 0)%Z then 0%Z else (maxWidth - 12 - 12)%Z).
  assert (Hw : w = Z.max 0 (maxWidth - 24)).
  { subst w. destruct (Z.ltb_spec (maxWidth - 12 - 12) 0); lia. }
  rewrite <- Hw. clear Hw.
  assert (Hw0 : (0 <= w)%Z) by (subst w; destruct (Z.ltb_spec (maxWidth - 12 - 12) 0); lia).
  destruct (Z.gtb_spec (slen (Name check)) w) as [Hgt | Hle].
  - destruct (substring_prefix (Z.to_nat w) (Name check)) as (rest & E & L).
    { unfold slen in Hgt. lia. }
    split; [unfold slen; rewrite L; lia|].
    split; [now exists rest | intros H; lia].
  - split; [assumption|]. split; [|reflexivity].
    exists "". clear. induction (Name check) as [| a r IH]; cbn; [reflexivity|].
    now rewrite <- IH.
Qed.

(** X9. For a positive width the header line of the checks view, once
    truncated, has exactly that many bytes: it is padded when short and
    cut when long. *)
Theorem headerLine_fills_width (m : model) :
  (0 < width m)%Z ->
  slen (truncate (headerLine nowText m) (width m)) = width m.
Proof.
  intros Hw. apply truncate_length. split; [exact Hw|].
  unfold headerLine. cbv zeta.
  set (h := "PR Checks - " ++ repo m ++ " #" ++ prNumber m).
  rewrite (slen_append h), slen_append, slen_spaces.
  destruct (Z.ltb_spec (width m - slen h - slen nowText) 1); lia.
Qed.

End RenderFacts.

(** ** More of gh.go *)

Section GhMoreFacts.
Import GoText Gh GhMore Sorter.

(** X10. [normalizeStatus] reads back the text that [CheckStatus.String]
    gives for a status, whenever trimming and uppercasing leave the four
    texts RUNNING, FAIL, PASS and SKIPPED as they are; so the four texts
    differ. *)
Theorem normalizeStatus_String (ToUpper TrimSpace : string -> string) :
  (forall s, ToUpper (TrimSpace (CheckStatus_String s)) = CheckStatus_String s) ->
  (forall s, normalizeStatus ToUpper TrimSpace (CheckStatus_String s) = s)
  /\ (forall s t, CheckStatus_String s = CheckStatus_String t -> s = t).
Proof.
  intros H. split.
  - intros s. unfold normalizeStatus. rewrite H. now destruct s.
  - intros s t. destruct s, t; cbn; congruence.
Qed.




Lemma checkLess_true_ordered (a b : Check) :
  checkLess a b = true <-> ~ ordered b a.
Proof.
  rewrite <- checkLess_false_ordered. destruct (checkLess a b); split; congruence.
Qed.

Lemma ordered_antisym_key (a b : Check) :
  ordered a b -> ordered b a -> sortKey a = sortKey b.
Proof.
  unfold ordered, sortKey. intros [H1 | [E1 L1]] [H2 | [E2 L2]]; try lia.
  f_equal; [assumption|]. now apply String.leb_antisym.
Qed.

Lemma ordered_refl_key (a b : Check) : sortKey a = sortKey b -> ordered a b.
Proof.
  unfold sortKey, ordered. intros [= E1 E2]. right. split; [assumption|].
  rewrite E2. destruct (String.leb_total (Name b) (Name b)); assumption.
Qed.

(** X12. The closure given to [sort.Slice] is a strict weak order, as
    that function requires: no check is less than itself, less is
    transitive, and two checks are unordered exactly when they agree on
    status and name. *)
Theorem checkLess_strict_weak_order :
  (forall a, checkLess a a = false)
  /\ (forall a b, checkLess a b = true -> checkLess b a = false)
  /\ (forall a b c, checkLess a b = true -> checkLess b c = true ->
                    checkLess a c = true)
  /\ (forall a b, checkLess a b = false /\ checkLess b a = false
                  <-> sortKey a = sortKey b).
Proof.
  split; [|split; [|split]].
  - intros a. apply checkLess_false_ordered. now apply ordered_refl_key.
  - intros a b H. apply checkLess_true_ordered in H.
    apply checkLess_false_ordered.
    destruct (ordered_total a b); [assumption | contradiction].
  - intros a b c Hab Hbc.
    apply checkLess_true_ordered in Hab, Hbc. apply checkLess_true_ordered.
    intros Hca. apply Hbc.
    destruct (ordered_total a b) as [H | H]; [|contradiction].
    eapply ordered_trans; eassumption.
  - intros a b. rewrite !checkLess_false_ordered. split.
    + intros [H1 H2]. now apply ordered_antisym_key.
    + intros E. split; apply ordered_refl_key; congruence.
Qed.

Lemma ordered_keyLe (a b : Check) : ordered a b <-> keyLe (sortKey a) (sortKey b).
Proof. reflexivity. Qed.

Lemma keyLe_antisym (k1 k2 : Z * string) : keyLe k1 k2 -> keyLe k2 k1 -> k1 = k2.
Proof.
  destruct k1 as [r1 n1], k2 as [r2 n2]. unfold keyLe. cbn.
  intros [H1 | [E1 L1]] [H2 | [E2 L2]]; try lia.
  f_equal; [assumption | now apply String.leb_antisym].
Qed.

Lemma keyLe_refl (k : Z * string) : keyLe k k.
Proof.
  right. split; [reflexivity|].
  destruct (String.leb_total (snd k) (snd k)); assumption.
Qed.

Lemma sorted_keys_unique (k1 : list (Z * string)) :
  forall k2, StronglySorted keyLe k1 -> StronglySorted keyLe k2 ->
             Permutation k1 k2 -> k1 = k2.
Proof.
  induction k1 as [| a t1 IH]; intros k2 S1 S2 P.
  - apply Permutation_nil in P. now subst.
  - destruct k2 as [| b t2]; [apply Permutation_sym, Permutation_nil in P; discriminate|].
    inversion S1 as [| ? ? S1' F1]; subst. inversion S2 as [| ? ? S2' F2]; subst.
    assert (Hba : keyLe b a).
    { assert (Hin : In a (b :: t2)) by (eapply Permutation_in; [exact P | now left]).
      destruct Hin as [-> | Hin]; [apply keyLe_refl|].
      rewrite Forall_forall in F2. now apply F2. }
    assert (Hab : keyLe a b).
    { assert (Hin : In b (a :: t1))
        by (eapply Permutation_in; [apply Permutation_sym; exact P | now left]).
      destruct Hin as [-> | Hin]; [apply keyLe_refl|].
      rewrite Forall_forall in F1. now apply F1. }
    assert (E : a = b) by now apply keyLe_antisym. subst b.
    f_equal. apply IH; try assumption. eapply Permutation_cons_inv; exact P.
Qed.

Lemma StronglySorted_keys (l : list Check) :
  StronglySorted ordered l -> StronglySorted keyLe (map sortKey l).
Proof.
  induction 1 as [| a l S IH F]; cbn; constructor; [assumption|].
  rewrite Forall_forall in *. intros k Hk. apply in_map_iff in Hk.
  destruct Hk as (b & <- & Hb). now apply F.
Qed.

(** X13. Whatever sort meets the contract of [sort.Slice], the sequence
    of (status, name) pairs of the sorted checks is the same: the order
    shown is determined up to the place of checks that agree on status
    and name. *)
Theorem sorted_keys_determined
  (sort1 sort2 : (Check -> Check -> bool) -> list Check -> list Check)
  (checks : list Check) :
  sortSliceContract sort1 -> sortSliceContract sort2 ->
  map sortKey (sort1 checkLess checks) = map sortKey (sort2 checkLess checks).
Proof.
  intros C1 C2. destruct (C1 checks) as [P1 S1]. destruct (C2 checks) as [P2 S2].
  apply sorted_keys_unique.
  - now apply StronglySorted_keys, StronglySorted_ordered_iff.
  - now apply StronglySorted_keys, StronglySorted_ordered_iff.
  - apply Permutation_map. eapply perm_trans; [apply Permutation_sym; exact P1 | exact P2].
Qed.

(** X14. [fetchPRData] turns every record of the rollup into one check
    and nothing else: as many checks as records, each check is the one
    built from some record and each record has its check; title, branch
    and URL are those of the response. *)
Theorem prData_checks_of_records
  (ToUpper TrimSpace : string -> string) (parse : string -> option Time)
  (now : Time) (ws : Z -> Z)
  (sortSlice : (Check -> Check -> bool) -> list Check -> list Check)
  (resp : ghPRResponse) :
  sortSliceContract sortSlice ->
  let d := prDataOfResponse ToUpper TrimSpace parse now ws sortSlice resp in
  len (Checks d) = len (rStatusCheckRollup resp)
  /\ (forall c, In c (Checks d)
                <-> exists item, In item (rStatusCheckRollup resp)
                                 /\ c = itemCheck ToUpper TrimSpace parse now ws item)
  /\ Title d = rTitle resp /\ HeadRefName d = rHeadRefName resp
  /\ URL d = rURL resp.
Proof.
  intros C d.
  destruct (C (map (itemCheck ToUpper TrimSpace parse now ws)
                   (rStatusCheckRollup resp))) as [P _].
  change (sortSlice checkLess _) with (Checks d) in P.
  split; [|split; [|now repeat split]].
  - unfold len. rewrite <- (Permutation_length P), length_map. reflexivity.
  - intros c. split.
    + intros Hin. apply (Permutation_in _ (Permutation_sym P)) in Hin.
      apply in_map_iff in Hin. destruct Hin as (item & <- & Hi). now exists item.
    + intros (item & Hi & ->). apply (Permutation_in _ P).
      apply in_map_iff. now exists item.
Qed.

End GhMoreFacts.

Section FormatDuration.
Import Gh GhMore.

Lemma string_of_uint_digits (d : Decimal.uint) :
  allDigits (NilEmpty.string_of_uint d) = true.
Proof. induction d; cbn; auto. Qed.

Lemma itoa_digits (n : Z) : (0 <= n)%Z -> allDigits (itoa n) = true.
Proof.
  intros H. unfold itoa. destruct n as [| p | p]; [reflexivity | | lia].
  cbn. unfold NilZero.string_of_uint.
  destruct (Pos.to_uint p); try reflexivity; apply string_of_uint_digits.
Qed.

Lemma itoa_inj (a b : Z) : itoa a = itoa b -> a = b.
Proof.
  unfold itoa. intros H.
  assert (Hn : forall z, Z.to_int z <> Decimal.Pos Decimal.Nil
                         /\ Z.to_int z <> Decimal.Neg Decimal.Nil).
  { intros [| p | p]; cbn; split; try discriminate;
      intros [= E]; now apply (DecimalPos.Unsigned.to_uint_nonnil p). }
  assert (E : Some (Z.to_int a) = Some (Z.to_int b)).
  { rewrite <- (NilZero.isi (Z.to_int a)) by apply Hn.
    rewrite <- (NilZero.isi (Z.to_int b)) by apply Hn. now rewrite H. }
  injection E as E. rewrite <- (DecimalZ.of_to a), <- (DecimalZ.of_to b).
  now rewrite E.
Qed.

Lemma digits_split (s : string) :
  forall t x y r r',
    allDigits s = true -> allDigits t = true ->
    isDigit x = false -> isDigit y = false ->
    s ++ String x r = t ++ String y r' -> s = t /\ x = y /\ r = r'.
Proof.
  induction s as [| a s IH]; intros t x y r r' Hs Ht Hx Hy E.
  - destruct t as [| b t]; cbn in E.
    + injection E as -> ->. auto.
    + injection E as -> _. cbn in Ht. rewrite Hx in Ht. discriminate.
  - destruct t as [| b t]; cbn in E.
    + injection E as -> _. cbn in Hs. rewrite Hy in Hs. discriminate.
    + injection E as -> E. cbn in Hs, Ht.
      apply andb_prop in Hs, Ht. destruct Hs as [_ Hs], Ht as [_ Ht].
      destruct (IH t x y r r' Hs Ht Hx Hy E) as (-> & -> & ->). auto.
Qed.

Lemma in_range60 (n : Z) : (0 <= n < 60)%Z -> In n range60.
Proof.
  intros H. unfold range60. apply in_map_iff. exists (Z.to_nat n).
  split; [lia|]. apply in_seq. lia.
Qed.

Lemma itoa02_range (a b : Z) :
  (0 <= a < 60)%Z -> (0 <= b < 60)%Z ->
  allDigits (itoa02 a) = true /\ (itoa02 a = itoa02 b -> a = b).
Proof.
  intros Ha Hb.
  assert (C : forallb (fun i =>
                allDigits (itoa02 i)
                && forallb (fun j => implb (itoa02 i =? itoa02 j)%string (i =? j)%Z)
                           range60) range60 = true) by (vm_compute; reflexivity).
  rewrite forallb_forall in C. specialize (C a (in_range60 a Ha)).
  apply andb_prop in C. destruct C as [Cd Ci]. split; [exact Cd|].
  rewrite forallb_forall in Ci. specialize (Ci b (in_range60 b Hb)).
  intros E. rewrite E, String.eqb_refl in Ci. cbn in Ci. now apply Z.eqb_eq.
Qed.

Lemma formatDuration_short (a : Z) :
  (0 <= a < 60)%Z -> formatDuration a = itoa a ++ "s".
Proof.
  intros H. unfold formatDuration.
  rewrite Z.quot_small, Z.rem_small by lia. reflexivity.
Qed.

Lemma formatDuration_long (a : Z) :
  (60 <= a)%Z ->
  formatDuration a = itoa (Z.quot a 60) ++ "m" ++ itoa02 (Z.rem a 60) ++ "s".
Proof.
  intros H. unfold formatDuration.
  assert (Hq : (0 < Z.quot a 60)%Z).
  { rewrite Z.quot_div_nonneg by lia.
    assert (1 <= a / 60)%Z by (apply Z.div_le_lower_bound; lia). lia. }
  destruct (Z.gtb_spec (Z.quot a 60) 0); [reflexivity | lia].
Qed.

(** X15. Two different durations, neither negative, are never shown as
    the same text by [formatDuration]. *)
Theorem formatDuration_injective (a b : Z) :
  (0 <= a)%Z -> (0 <= b)%Z ->
  (formatDuration a = formatDuration b <-> a = b).
Proof.
  intros Ha Hb. split; [|now intros ->].
  assert (Hs : isDigit "s" = false) by reflexivity.
  assert (Hm : isDigit "m" = false) by reflexivity.
  destruct (Z.lt_ge_cases a 60) as [La | La], (Z.lt_ge_cases b 60) as [Lb | Lb].
  - rewrite !formatDuration_short by lia. intros E.
    apply digits_split in E; try (apply itoa_digits; lia); try assumption.
    apply itoa_inj. tauto.
  - rewrite (formatDuration_short a), (formatDuration_long b) by lia. intros E.
    apply digits_split in E; try assumption.
    + destruct E as (_ & [=] & _).
    + apply itoa_digits. lia.
    + apply itoa_digits. apply Z.quot_pos; lia.
  - rewrite (formatDuration_long a), (formatDuration_short b) by lia. intros E.
    symmetry in E. apply digits_split in E; try assumption.
    + destruct E as (_ & [=] & _).
    + apply itoa_digits. lia.
    + apply itoa_digits. apply Z.quot_pos; lia.
  - rewrite !formatDuration_long by lia. intros E.
    apply digits_split in E; try assumption;
      try (apply itoa_digits; apply Z.quot_pos; lia).
    destruct E as (Eq & _ & Er). apply itoa_inj in Eq.
    assert (Ra : (0 <= Z.rem a 60 < 60)%Z) by (apply Z.rem_bound_pos; lia).
    assert (Rb : (0 <= Z.rem b 60 < 60)%Z) by (apply Z.rem_bound_pos; lia).
    apply digits_split in Er; try assumption;
      [|exact (proj1 (itoa02_range _ _ Ra Ra)) | exact (proj1 (itoa02_range _ _ Rb Rb))].
    destruct Er as (Er & _ & _).
    apply (proj2 (itoa02_range _ _ Ra Rb)) in Er.
    rewrite (Z.quot_rem' a 60), (Z.quot_rem' b 60). now rewrite Eq, Er.
Qed.

End FormatDuration.

(** ** More of Update in ui.go *)

Section UpdateFacts.
Import Gh Ui Nav.

Lemma len_nonneg {A} (l : list A) : (0 <= len l)%Z.
Proof. unfold len. lia. Qed.

Lemma index_defined {A} (l : list A) (i : Z) :
  (0 <= i < len l)%Z -> exists x, index l i = Some x.
Proof.
  intros [H0 H1]. unfold index. destruct (Z.ltb_spec i 0); [lia|].
  destruct (nth_error l (Z.to_nat i)) as [x |] eqn:E; [now exists x|].
  apply nth_error_None in E. unfold len in H1. lia.
Qed.

Lemma moveUp_selectionInRange (m : model) :
  selectionInRange m -> selectionInRange (moveUp m).
Proof. apply moveUp_inRange. Qed.

Lemma Update_selectionInRange (m : model) (msg : Msg) (r : Result) :
  selectionInRange m -> Update m msg = Some r -> selectionInRange (next r).
Proof.
  intros Hin Hup.
  destruct msg as [k | l oe | od oe | | w h |]; cbn in Hup.
  - destruct k; try (injection Hup as <-; assumption).
    + injection Hup as <-. now apply moveUp_inRange.
    + injection Hup as <-. now apply moveDown_inRange.
    + destruct (mode m) eqn:Em.
      * destruct (len (prs m) >? 0)%Z; [|injection Hup as <-; assumption].
        destruct (index (prs m) (selected m)); [|discriminate].
        injection Hup as <-. unfold selectionInRange, activeLen. cbn. lia.
      * destruct (prData m) as [d |]; [|injection Hup as <-; assumption].
        destruct (len (Checks d) >? 0)%Z; [|injection Hup as <-; assumption].
        destruct (index (Checks d) (selected m)) as [c |]; [|discriminate].
        destruct (negb (DetailsURL c =? "")); injection Hup as <-; assumption.
    + destruct (runes =? "q"); [injection Hup as <-; assumption|].
      destruct (runes =? "r").
      { destruct (mode m) eqn:Em; injection Hup as <-; [|assumption].
        unfold selectionInRange, activeLen in *. cbn. now rewrite Em in *. }
      destruct (runes =? "k"); [injection Hup as <-; now apply moveUp_inRange|].
      destruct (runes =? "j"); injection Hup as <-;
        [now apply moveDown_inRange | assumption].
  - pose proof (len_nonneg l) as Hl.
    destruct oe; injection Hup as <-.
    + unfold selectionInRange, activeLen in *. cbn. exact Hin.
    + unfold selectionInRange, activeLen in *. cbn.
      destruct (mode m); [lia|]. destruct (prData m) as [d |]; [|lia].
      pose proof (len_nonneg (Checks d)). lia.
  - destruct oe as [e |].
    + injection Hup as <-. unfold selectionInRange, activeLen in *. cbn. exact Hin.
    + destruct od as [d |]; [|discriminate].
      pose proof (len_nonneg (Checks d)) as Hd.
      pose proof (len_nonneg (prs m)) as Hp.
      unfold selectionInRange, activeLen in *. cbn in Hup.
      destruct Hin as [I1 I2]. revert I1 I2.
      destruct (Z.gtb_spec (len (Checks d)) 0);
        [destruct (Z.geb_spec (selected m) (len (Checks d)))|];
        injection Hup as <-; cbn; destruct (mode m);
        try (destruct (prData m) as [p |];
             [pose proof (len_nonneg (Checks p))|]); intros; lia.
  - injection Hup as <-. assumption.
  - injection Hup as <-. unfold selectionInRange, activeLen in *. cbn. exact Hin.
  - injection Hup as <-. assumption.
Qed.

Lemma reachable_selectionInRange (m : model) :
  reachable m -> selectionInRange m.
Proof.
  induction 1 as [r p i | i | m msg r _ IH Hup].
  - unfold selectionInRange, activeLen. cbn. lia.
  - unfold selectionInRange, activeLen. cbn. lia.
  - eapply Update_selectionInRange; eassumption.
Qed.

(** X16. In every model the program can be in, whatever messages led to
    it, the selection index is within the collection active for the mode,
    or 0 when that collection is empty; and [Update] handles every message
    without a run-time panic, except a data message that carries neither
    data nor error. *)
Theorem update_never_panics (m : model) (msg : Msg) :
  reachable m ->
  selectionInRange m
  /\ (msg <> prDataMsg None None -> exists r, Update m msg = Some r).
Proof.
  intros R. pose proof (reachable_selectionInRange m R) as Hin.
  split; [exact Hin|]. intros Hmsg.
  destruct Hin as [I1 I2]. unfold activeLen in I1, I2.
  destruct msg as [k | l oe | od oe | | w h |]; cbn;
    try (eexists; reflexivity).
  - destruct k; try (eexists; reflexivity).
    + destruct (mode m).
      * destruct (Z.gtb_spec (len (prs m)) 0); [|eexists; reflexivity].
        destruct (index_defined (prs m) (selected m)) as (pr & E); [lia|].
        rewrite E. eexists; reflexivity.
      * destruct (prData m) as [d |]; [|eexists; reflexivity].
        destruct (Z.gtb_spec (len (Checks d)) 0); [|eexists; reflexivity].
        destruct (index_defined (Checks d) (selected m)) as (c & E); [lia|].
        rewrite E. destruct (negb (DetailsURL c =? "")); eexists; reflexivity.
    + destruct (runes =? "q"); [eexists; reflexivity|].
      destruct (runes =? "r"); [destruct (mode m); eexists; reflexivity|].
      destruct (runes =? "k"); [eexists; reflexivity|].
      destruct (runes =? "j"); eexists; reflexivity.
  - destruct oe; eexists; reflexivity.
  - destruct oe; [eexists; reflexivity|].
    destruct od as [d |]; [|congruence].
    destruct (len (Checks d) >? 0)%Z;
      [destruct (selected _ >=? len (Checks d))%Z|]; eexists; reflexivity.
Qed.

(** X17. In the picker, Enter over a list that is not empty opens the PR
    under the selection: the model turns to the checks view of that PR
    with selection 0 and neither data nor error, and the command fetches
    that PR and starts the timer.  In the checks view, Enter leaves the
    model as it is and hands the details URL of the check under the
    selection to the browser when that URL is not empty. *)
Theorem enter_opens_selected (m : model) :
  reachable m ->
  (mode m = modeSelecting -> prs m <> [] ->
   exists pr,
     nth_error (prs m) (Z.to_nat (selected m)) = Some pr
     /\ Update m (KeyMsg KeyEnter)
        = ret (mkModel modeViewing (Repo pr) (itoa (Number pr)) (interval m)
                       None None 0 (width m) (height m) (prs m) (loading m))
              (CmdBatch (CmdFetch (Repo pr) (itoa (Number pr)))
                        (CmdTick (interval m))))
  /\ (forall d, mode m = modeViewing -> prData m = Some d -> Checks d <> [] ->
      exists check,
        nth_error (Checks d) (Z.to_nat (selected m)) = Some check
        /\ Update m (KeyMsg KeyEnter)
           = Some (mkResult m CmdNil
                     (if DetailsURL check =? "" then None
                      else Some (DetailsURL check)))).
Proof.
  intros R. destruct (reachable_selectionInRange m R) as [I1 I2].
  unfold activeLen in I1, I2. split.
  - intros Em Hne. rewrite Em in I1, I2.
    assert (Hpos : (len (prs m) > 0)%Z).
    { unfold len. destruct (prs m); [congruence | cbn; lia]. }
    destruct (index_defined (prs m) (selected m)) as (pr & E); [lia|].
    exists pr. split.
    + unfold index in E. destruct (selected m <? 0)%Z; [discriminate | exact E].
    + cbn. rewrite Em, E.
      destruct (Z.gtb_spec (len (prs m)) 0); [reflexivity | lia].
  - intros d Em Ed Hne. rewrite Em, Ed in I1, I2.
    assert (Hpos : (len (Checks d) > 0)%Z).
    { unfold len. destruct (Checks d); [congruence | cbn; lia]. }
    destruct (index_defined (Checks d) (selected m)) as (c & E); [lia|].
    exists c. split.
    + unfold index in E. destruct (selected m <? 0)%Z; [discriminate | exact E].
    + cbn. rewrite Em, Ed, E.
      destruct (Z.gtb_spec (len (Checks d)) 0); [|lia].
      destruct (DetailsURL c =? ""); reflexivity.
Qed.

End UpdateFacts.

(** ** The summary line and the relative time of ui.go *)

Section SummaryFacts.
Import GoText Gh GhMore Ui Render.

Lemma countOf_acc (st : CheckStatus) (checks : list Check) (n : Z) :
  fold_left (fun n c => if CheckStatus_eqb (Status c) st then (n + 1)%Z else n)
            checks n
  = (n + countOf st checks)%Z.
Proof.
  unfold countOf. revert n. induction checks as [| c r IH]; intros n; cbn.
  - lia.
  - rewrite IH, (IH (if CheckStatus_eqb (Status c) st then 1 else 0)%Z).
    destruct (CheckStatus_eqb (Status c) st); lia.
Qed.

Lemma countOf_cons (st : CheckStatus) (c : Check) (r : list Check) :
  countOf st (c :: r)
  = ((if CheckStatus_eqb (Status c) st then 1 else 0) + countOf st r)%Z.
Proof.
  unfold countOf at 1. cbn. rewrite countOf_acc.
  destruct (CheckStatus_eqb (Status c) st); lia.
Qed.

Lemma countOf_nonneg (st : CheckStatus) (checks : list Check) :
  (0 <= countOf st checks)%Z.
Proof.
  induction checks as [| c r IH]; [cbn; lia|].
  rewrite countOf_cons. destruct (CheckStatus_eqb (Status c) st); lia.
Qed.

(** X18. The counts of the summary line are those of the checks with
    each status, every check is counted once (the four counts add up to
    the total), and the line lists no status exactly when there is no
    check. *)
Theorem summary_counts (checks : list Check) :
  (forall st, countOf st checks
              = len (filter (fun c => CheckStatus_eqb (Status c) st) checks))
  /\ (countOf Pass checks + countOf Running checks + countOf Fail checks
      + countOf Skipped checks = len checks)%Z
  /\ (summaryParts checks = [] <-> checks = []).
Proof.
  split; [|split].
  - intros st. induction checks as [| c r IH]; [reflexivity|].
    rewrite countOf_cons, IH. cbn [filter].
    destruct (CheckStatus_eqb (Status c) st); unfold len; cbn [List.length];
      rewrite ?Nat2Z.inj_succ; lia.
  - induction checks as [| c r IH]; [reflexivity|].
    rewrite !countOf_cons. unfold len in *. cbn [List.length].
    rewrite Nat2Z.inj_succ.
    destruct (Status c); cbn -[countOf Z.add Z.of_nat]; lia.
  - split.
    + intros H. destruct checks as [| c r]; [reflexivity|]. exfalso.
      unfold summaryParts in H. rewrite !countOf_cons in H.
      pose proof (countOf_nonneg Pass r) as N1.
      pose proof (countOf_nonneg Running r) as N2.
      pose proof (countOf_nonneg Fail r) as N3.
      pose proof (countOf_nonneg Skipped r) as N4.
      assert (P : forall (b : bool) (x : list string), (if b then x else []) = [] ->
                    x <> [] -> b = false)
        by (intros [] x; [intros ->; congruence | reflexivity]).
      apply app_eq_nil in H. destruct H as [H1 H].
      apply app_eq_nil in H. destruct H as [H2 H].
      apply app_eq_nil in H. destruct H as [H3 H4].
      apply P in H1; [|discriminate]. apply P in H2; [|discriminate].
      apply P in H3; [|discriminate]. apply P in H4; [|discriminate].
      rewrite Z.gtb_ltb, Z.ltb_ge in H1, H2, H3, H4.
      destruct (Status c); cbn -[countOf Z.add] in H1, H2, H3, H4; lia.
    + intros ->. reflexivity.
Qed.

Variable Since : Time -> Z.
Variable wholeMinutes wholeHours wholeDays : Z -> Z.
Variable parseRFC3339 : string -> option Time.

Let relativeTime :=
  relativeTime Since wholeMinutes wholeHours wholeDays parseRFC3339.

Lemma append_nonempty_r (a b : string) : b <> "" -> a ++ b <> "".
Proof. destruct a; [trivial | discriminate]. Qed.

(** X19. [relativeTime] gives the empty text exactly when the timestamp
    does not parse; a timestamp less than a minute old, one in the future
    included, gives "just now". *)
Theorem relativeTime_edges (updatedAt : string) :
  (relativeTime updatedAt = "" <-> parseRFC3339 updatedAt = None)
  /\ (forall t, parseRFC3339 updatedAt = Some t ->
                (Since t < 60 * 1000000000)%Z ->
                relativeTime updatedAt = "just now").
Proof.
  unfold relativeTime, Render.relativeTime. split.
  - destruct (parseRFC3339 updatedAt) as [t |]; [|tauto].
    split; [|discriminate]. intros H. exfalso. revert H.
    destruct (Since t <? 60 * 1000000000)%Z; [discriminate|].
    destruct (Since t <? 3600 * 1000000000)%Z;
      [apply append_nonempty_r; discriminate|].
    destruct (Since t <? 24 * (3600 * 1000000000))%Z;
      apply append_nonempty_r; discriminate.
  - intros t -> H. apply Z.ltb_lt in H. now rewrite H.
Qed.

End SummaryFacts.

(** ** Runs on concrete inputs *)

Import MoreInstances.

Lemma pickerAtOne_reachable : Nav.reachable pickerAtOne.
Proof.
  apply (ui_reachable_updates toPicker (Ui.newSelectModel 5));
    [constructor | reflexivity].
Qed.

Lemma parsePRURL_accepts_witness :
  Main.parsePRURL
    (GoText.Join ["https:"; ""; "github.com"; "owner"; "repo"; "pull"; "123";
                  "files"] "/")
  = ("owner" ++ "/" ++ "repo", "123", true).
Proof.
  apply (parsePRURL_accepts "https:" "" "owner" "repo" "123" ["files"]).
  - repeat constructor.
  - discriminate.
  - cbn. discriminate.
Defined.

Lemma parsePRURL_sound_witness :
  (true = true ->
   exists p0 p1 owner name rest,
     GoText.TrimRight "https://github.com/owner/repo/pull/123/" "/"
     = GoText.Join
         (p0 :: p1 :: "github.com" :: owner :: name :: "pull" :: "123" :: rest)
         "/"
     /\ "owner/repo" = owner ++ "/" ++ name
     /\ Main.slashFree owner /\ Main.slashFree name /\ Main.slashFree "123"
     /\ "123" <> "")
  /\ (true = false -> "owner/repo" = "" /\ "123" = "").
Proof.
  apply (parsePRURL_sound "https://github.com/owner/repo/pull/123/"
                          "owner/repo" "123" true).
  reflexivity.
Defined.

Lemma main_url_or_pair_witness :
  Main.main 5 [Main.prURL "owner" "repo" "123"] true
  = Main.main 5 ["owner" ++ "/" ++ "repo"; "123"] true
  /\ Main.main 5 [Main.prURL "owner" "repo" "123"] true
     = Main.Run (Ui.newModel ("owner" ++ "/" ++ "repo") "123" (Main.seconds 5))
  /\ (forall args gh, (len args > 2)%Z \/ gh = false ->
                      Main.main 5 args gh = Main.Exit 1).
Proof.
  apply (main_url_or_pair 5 "owner" "repo" "123");
    try reflexivity; discriminate.
Defined.

Lemma view_banner_precedence_witness :
  Render.View plain nowText sinceClock truncSeconds truncMinutes truncHours
              truncDays parseTable slen unsized
  = Render.View plain nowText sinceClock truncSeconds truncMinutes truncHours
                truncDays parseTable slen unsizedWithData
  /\ Render.View plain nowText sinceClock truncSeconds truncMinutes truncHours
                 truncDays parseTable slen unsized
     = "Loading...".
Proof.
  destruct (view_banner_precedence plain nowText sinceClock truncSeconds
              truncMinutes truncHours truncDays parseTable slen
              unsized unsizedWithData) as [H1 H2].
  - repeat split.
  - left. reflexivity.
  - split; [exact H1 | apply H2; reflexivity].
Defined.

Lemma view_fetching_precedence_witness :
  Render.View plain nowText sinceClock truncSeconds truncMinutes truncHours
              truncDays parseTable slen (Ui.newSelectModel 5)
  = Render.View plain nowText sinceClock truncSeconds truncMinutes truncHours
                truncDays parseTable slen
                (Ui.setPrs (Ui.newSelectModel 5) twoPRs)
  /\ Render.View plain nowText sinceClock truncSeconds truncMinutes truncHours
                 truncDays parseTable slen waiting
     = Render.View plain nowText sinceClock truncSeconds truncMinutes
                   truncHours truncDays parseTable slen waitingTall.
Proof.
  split.
  - apply (proj1 (view_fetching_precedence plain nowText sinceClock
                    truncSeconds truncMinutes truncHours truncDays parseTable
                    slen (Ui.newSelectModel 5)
                    (Ui.setPrs (Ui.newSelectModel 5) twoPRs)
                    ltac:(repeat split) eq_refl)); reflexivity.
  - apply (proj2 (view_fetching_precedence plain nowText sinceClock
                    truncSeconds truncMinutes truncHours truncDays parseTable
                    slen waiting waitingTall ltac:(repeat split) eq_refl));
      reflexivity.
Defined.

Lemma liveDuration_formatDuration_witness :
  Render.liveDuration sinceClock truncSeconds (convert jenkinsItem) = "???"
  /\ Render.liveDuration sinceClock truncSeconds (convert pendingItem)
     = Gh.formatDuration 300.
Proof.
  split.
  - apply (proj2 (liveDuration_formatDuration sinceClock truncSeconds)).
    reflexivity.
  - apply (proj1 (liveDuration_formatDuration sinceClock truncSeconds)).
Defined.

Lemma nameColumn_bound_witness :
  Render.nameColumn 80 zebra = Gh.Name zebra.
Proof.
  apply (proj2 (proj2 (nameColumn_bound 80 zebra))). cbv. discriminate.
Defined.

Lemma headerLine_fills_width_witness :
  slen (Ui.truncate (Render.headerLine nowText modelThree) 80) = 80%Z
  /\ slen (Ui.truncate (Render.headerLine nowText narrow) 10) = 10%Z.
Proof.
  split.
  - apply (headerLine_fills_width nowText modelThree). reflexivity.
  - apply (headerLine_fills_width nowText narrow). reflexivity.
Defined.

Lemma normalizeStatus_String_witness :
  (forall s, Gh.normalizeStatus asciiToUpper asciiTrimSpace
               (GhMore.CheckStatus_String s) = s)
  /\ (forall s t, GhMore.CheckStatus_String s = GhMore.CheckStatus_String t ->
                  s = t).
Proof.
  apply (normalizeStatus_String asciiToUpper asciiTrimSpace).
  intros []; reflexivity.
Defined.

Lemma checkLess_strict_weak_order_witness :
  Gh.checkLess beta zebra = true /\ Gh.checkLess zebra beta = false.
Proof.
  assert (H : Gh.checkLess beta zebra = true).
  { apply (proj1 (proj2 (proj2 checkLess_strict_weak_order)) beta alpha zebra);
      reflexivity. }
  split; [exact H|].
  apply (proj1 (proj2 checkLess_strict_weak_order) beta zebra H).
Defined.

Lemma sorted_keys_determined_witness :
  map GhMore.sortKey (Sorter.insertionSort Gh.checkLess thirteen)
  = map GhMore.sortKey (Sorter.backwardSort Gh.checkLess thirteen).
Proof.
  apply (sorted_keys_determined Sorter.insertionSort Sorter.backwardSort
           thirteen insertionSort_contract backwardSort_contract).
Defined.

Lemma prData_checks_of_records_witness :
  let d := Gh.prDataOfResponse asciiToUpper asciiTrimSpace parseTable clock
             truncSeconds Sorter.insertionSort rollup in
  len (Gh.Checks d) = len (Gh.rStatusCheckRollup rollup)
  /\ (forall c, In c (Gh.Checks d)
                <-> exists item, In item (Gh.rStatusCheckRollup rollup)
                                 /\ c = convert item)
  /\ Gh.Title d = Gh.rTitle rollup
  /\ Gh.HeadRefName d = Gh.rHeadRefName rollup
  /\ Gh.URL d = Gh.rURL rollup.
Proof.
  apply (prData_checks_of_records asciiToUpper asciiTrimSpace parseTable clock
           truncSeconds Sorter.insertionSort rollup insertionSort_contract).
Defined.

Lemma formatDuration_injective_witness :
  Gh.formatDuration 75 = Gh.formatDuration 4275 <-> 75%Z = 4275%Z.
Proof. apply (formatDuration_injective 75 4275); lia. Defined.

Lemma update_never_panics_witness :
  Nav.selectionInRange modelAtFive
  /\ (exists r, Ui.Update modelAtFive (Ui.KeyMsg Ui.KeyEnter) = Some r)
  /\ (exists r, Ui.Update pickerAtOne (Ui.prDataMsg (Some mixed) None) = Some r).
Proof.
  split; [|split].
  - apply (update_never_panics modelAtFive Ui.tickMsg modelAtFive_reachable).
  - apply (update_never_panics modelAtFive (Ui.KeyMsg Ui.KeyEnter)
             modelAtFive_reachable).
    discriminate.
  - apply (update_never_panics pickerAtOne (Ui.prDataMsg (Some mixed) None)
             pickerAtOne_reachable).
    discriminate.
Defined.

Lemma enter_opens_selected_witness :
  (exists pr,
     nth_error twoPRs 1 = Some pr
     /\ Ui.Update pickerAtOne (Ui.KeyMsg Ui.KeyEnter)
        = Ui.ret (Ui.mkModel Ui.modeViewing (Gh.Repo pr) (itoa (Gh.Number pr)) 5
                             None None 0 80 24 twoPRs false)
                 (Ui.CmdBatch (Ui.CmdFetch (Gh.Repo pr) (itoa (Gh.Number pr)))
                              (Ui.CmdTick 5)))
  /\ (exists check,
        nth_error (Gh.Checks sixPassing) 5 = Some check
        /\ Ui.Update modelAtFive (Ui.KeyMsg Ui.KeyEnter)
           = Some (Ui.mkResult modelAtFive Ui.CmdNil
                     (if Gh.DetailsURL check =? "" then None
                      else Some (Gh.DetailsURL check)))).
Proof.
  split.
  - apply (proj1 (enter_opens_selected pickerAtOne pickerAtOne_reachable));
      [reflexivity | discriminate].
  - apply (proj2 (enter_opens_selected modelAtFive modelAtFive_reachable)
             sixPassing); [reflexivity | reflexivity | discriminate].
Defined.

Lemma relativeTime_edges_witness :
  Render.relativeTime sinceEarly truncMinutes truncHours truncDays parseTable
                      "2024-01-01T10:02:35Z" = "just now"
  /\ Render.relativeTime sinceEarly truncMinutes truncHours truncDays parseTable
                         "yesterday" = "".
Proof.
  split.
  - apply (proj2 (relativeTime_edges sinceEarly truncMinutes truncHours
                    truncDays parseTable "2024-01-01T10:02:35Z")
             (63839700155 * 1000000000)%Z); reflexivity.
  - apply (proj2 (proj1 (relativeTime_edges sinceEarly truncMinutes truncHours
                           truncDays parseTable "yesterday"))).
    reflexivity.
Defined.
